(** * Dual-mode asynchronous functions of async-mix-and-match

    A shallow embedding of the demonstration functions of the repository
    (examples/6-bad-vs-good-dualmode.js, the dual-mode example, the test
    suite and the anti-pattern file) over a small model of the Node.js
    runtime they run on: values, promises with reaction lists, the
    microtask queue, [setTimeout] and [setImmediate] queues, and a trace of
    what the program did, in the order it did it.

    Every arrow function of the source is one constructor of [closure]
    holding its free variables; [run_closure] is its body. *)

From Stdlib Require Import List String ZArith Bool Arith Lia DecimalString Permutation.
Import ListNotations.
Open Scope string_scope.
Open Scope list_scope.

(** ** JavaScript values *)

Module JS.

Definition pid := nat.
Definition fid := nat.

#[warnings="-register-all"] Inductive value : Type :=
| VUndefined
| VNull
| VBool (b : bool)
| VNum (n : Z)
| VStr (s : string)
| VError (message : string)
| VObject (fields : list (string * value))
| VFunction (f : fid)
| VPromise (p : pid).

(** [typeof v] *)
Definition typeof (v : value) : string :=
  match v with
  | VUndefined => "undefined"
  | VNull => "object"
  | VBool _ => "boolean"
  | VNum _ => "number"
  | VStr _ => "string"
  | VError _ => "object"
  | VObject _ => "object"
  | VFunction _ => "function"
  | VPromise _ => "object"
  end.

(** [typeof v === 'function'] *)
Definition is_function (v : value) : bool := String.eqb (typeof v) "function".

(** [v === 'lit'] for a string literal: strict equality never converts. *)
Definition strict_eq_str (v : value) (lit : string) : bool :=
  match v with
  | VStr s => String.eqb s lit
  | _ => false
  end.

(** The condition of [if (v)]. *)
Definition truthy (v : value) : bool :=
  match v with
  | VUndefined | VNull => false
  | VBool b => b
  | VNum n => negb (Z.eqb n 0)
  | VStr s => negb (String.eqb s "")
  | VError _ | VObject _ | VFunction _ | VPromise _ => true
  end.

(** String conversion inside a template literal.  The source text of a
    function is not part of the model; it is rendered as a fixed tag. *)
Definition to_string (v : value) : string :=
  match v with
  | VUndefined => "undefined"
  | VNull => "null"
  | VBool true => "true"
  | VBool false => "false"
  | VNum n => NilZero.string_of_int (Z.to_int n)
  | VStr s => s
  | VError m => ("Error: " ++ m)%string
  | VObject _ => "[object Object]"
  | VFunction _ => "[Function]"
  | VPromise _ => "[object Promise]"
  end.

(** How a callee reads its [i]-th parameter: a missing argument is
    [undefined]. *)
Definition arg (i : nat) (args : list value) : value := nth i args VUndefined.

(** [e instanceof Error], the only non-absent error values of the model. *)
Definition is_error (v : value) : bool :=
  match v with VError _ => true | _ => false end.

End JS.
Export JS.

(** ** The runtime: promises, queues and the trace *)

Inductive outcome : Type :=
| Fulfilled (v : value)
| Rejected (reason : value).

Definition outcome_value (o : outcome) : value :=
  match o with Fulfilled v => v | Rejected r => r end.

(** What the program did, oldest first. *)
Inductive event : Type :=
| EvTypeof (v : value) (is_fn : bool)
| EvNewPromise (p : pid)
| EvSetTimeout (delay : nat)
| EvSetImmediate
| EvInvoke (f : fid) (args : list value)
| EvSettle (p : pid) (o : outcome)
| EvReturn (v : value)
| EvUncaught (exn : value).

(** A function handed in by the caller either returns or throws; what it
    does may depend on its arguments and on everything that happened
    before.  It does not itself touch the queues. *)
Inductive completion : Type :=
| Returns (v : value)
| Throws (exn : value).

Definition host := fid -> list event -> list value -> completion.

(** The arrow functions of the source. *)
Inductive closure : Type :=
(* examples/6-bad-vs-good-dualmode.js *)
| badDualMode_timer (param callback : value) (p : pid)
| goodDualMode_callback_timer (param callback : value)
| goodDualMode_promise_timer (param : value) (p : pid)
(* dual-mode example and test suite: work.then(...).catch(...) *)
| dualModeFunction_timer (param1 param2 : value) (p : pid)
| dualModeFunc_immediate (param : value) (p : pid)
| deliver_result (callback : value)
| deliver_error (callback : value)
(* callback-only functions *)
| callbackOnlyFunc_immediate (param callback : value)
| callbackOnlyFunction_timer (param1 param2 callback : value)
(* anti-pattern *)
| versatileFunction_timer (param : value) (p : pid)
(* a handler the caller attaches with then / catch *)
| caller_handler (h : value).

Record reaction : Type := mkReaction {
  on_fulfilled : option closure;
  on_rejected : option closure;
  derived : pid
}.

Record promise : Type := mkPromise {
  settled : option outcome;
  reactions : list reaction
}.

Record job : Type := mkJob {
  job_handler : option closure;
  job_input : outcome;
  job_target : pid
}.

Record loop_state : Type := mkLoop {
  clock : nat;
  heap : list promise;
  timers : list (nat * closure);
  immediates : list closure;
  jobs : list job;
  trace : list event;
  crashed : bool;
  rejections : list (pid * value)
}.

Definition boot : loop_state := mkLoop 0 [] [] [] [] [] false [].

Definition set_clock (t : nat) (st : loop_state) : loop_state :=
  mkLoop t (heap st) (timers st) (immediates st) (jobs st) (trace st) (crashed st)
    (rejections st).
Definition set_heap (h : list promise) (st : loop_state) : loop_state :=
  mkLoop (clock st) h (timers st) (immediates st) (jobs st) (trace st) (crashed st)
    (rejections st).
Definition set_timers (ts : list (nat * closure)) (st : loop_state) : loop_state :=
  mkLoop (clock st) (heap st) ts (immediates st) (jobs st) (trace st) (crashed st)
    (rejections st).
Definition set_immediates (cs : list closure) (st : loop_state) : loop_state :=
  mkLoop (clock st) (heap st) (timers st) cs (jobs st) (trace st) (crashed st)
    (rejections st).
Definition set_jobs (js : list job) (st : loop_state) : loop_state :=
  mkLoop (clock st) (heap st) (timers st) (immediates st) js (trace st) (crashed st)
    (rejections st).
Definition set_trace (tr : list event) (st : loop_state) : loop_state :=
  mkLoop (clock st) (heap st) (timers st) (immediates st) (jobs st) tr (crashed st)
    (rejections st).
Definition set_crashed (b : bool) (st : loop_state) : loop_state :=
  mkLoop (clock st) (heap st) (timers st) (immediates st) (jobs st) (trace st) b
    (rejections st).
Definition set_rejections (rs : list (pid * value)) (st : loop_state) : loop_state :=
  mkLoop (clock st) (heap st) (timers st) (immediates st) (jobs st) (trace st)
    (crashed st) rs.

(** ** Computations: state plus exceptions *)

Inductive result (A : Type) : Type :=
| Ok (a : A)
| Throw (exn : value).
Arguments Ok {A} a.
Arguments Throw {A} exn.

Definition M (A : Type) : Type := loop_state -> result A * loop_state.

Definition ret {A} (a : A) : M A := fun st => (Ok a, st).

Definition bind {A B} (m : M A) (k : A -> M B) : M B :=
  fun st =>
    match m st with
    | (Ok a, st') => k a st'
    | (Throw e, st') => (Throw e, st')
    end.

Definition throw {A} (e : value) : M A := fun st => (Throw e, st).

Notation "x <- m ;; k" := (bind m (fun x => k))
  (at level 61, m at next level, right associativity).
Notation "m ;; k" := (bind m (fun _ => k))
  (at level 61, right associativity).

Definition emit (e : event) : M unit :=
  fun st => (Ok tt, set_trace (trace st ++ [e]) st).

(** [Date.now()] on the virtual clock. *)
Definition date_now : M value :=
  fun st => (Ok (VNum (Z.of_nat (clock st))), st).

(** [typeof callback === 'function'], recorded. *)
Definition typeof_is_function (v : value) : M bool :=
  emit (EvTypeof v (is_function v)) ;; ret (is_function v).

Fixpoint update {A} (i : nat) (x : A) (l : list A) : list A :=
  match l, i with
  | [], _ => []
  | _ :: t, O => x :: t
  | h :: t, S j => h :: update j x t
  end.

(** The promise allocated by [new Promise(...)], pending. *)
Definition alloc_promise : M pid :=
  fun st =>
    let p := List.length (heap st) in
    (Ok p, set_trace (trace st ++ [EvNewPromise p])
             (set_heap (heap st ++ [mkPromise None []]) st)).

Definition job_of (o : outcome) (r : reaction) : job :=
  mkJob (match o with
         | Fulfilled _ => on_fulfilled r
         | Rejected _ => on_rejected r
         end) o (derived r).

(** A promise rejected while it has no reaction is noted as a rejection
    nobody handles yet. *)
Definition unhandled (p : pid) (o : outcome) (rs : list reaction)
  : list (pid * value) :=
  match o, rs with
  | Rejected e, [] => [(p, e)]
  | _, _ => []
  end.

(** Attaching a reaction to [p] handles it. *)
Definition handle (p : pid) (l : list (pid * value)) : list (pid * value) :=
  filter (fun r => negb (Nat.eqb (fst r) p)) l.

(** [resolve(v)] / [reject(e)] of promise [p]: the first settlement fixes
    the state and queues the reactions; later ones do nothing at all. *)
Definition settle (p : pid) (o : outcome) : M unit :=
  fun st =>
    match nth_error (heap st) p with
    | Some (mkPromise None rs) =>
        (Ok tt,
         set_rejections (rejections st ++ unhandled p o rs)
           (set_trace (trace st ++ [EvSettle p o])
              (set_jobs (jobs st ++ map (job_of o) rs)
                 (set_heap (update p (mkPromise (Some o) []) (heap st)) st))))
    | _ => (Ok tt, st)
    end.

Definition resolve (p : pid) (v : value) : M unit := settle p (Fulfilled v).
Definition reject (p : pid) (e : value) : M unit := settle p (Rejected e).

(** [p.then(onF, onR)]: a derived promise; the reaction is stored while
    [p] is pending and queued as a job when [p] is already settled. *)
Definition promise_then (p : pid) (onF onR : option closure) : M pid :=
  d <- alloc_promise ;;
  fun st =>
    match nth_error (heap st) p with
    | Some (mkPromise None rs) =>
        (Ok d, set_heap
                 (update p (mkPromise None (rs ++ [mkReaction onF onR d]))
                    (heap st)) st)
    | Some (mkPromise (Some o) _) =>
        (Ok d, set_rejections (handle p (rejections st))
                 (set_jobs (jobs st ++ [job_of o (mkReaction onF onR d)]) st))
    | None => (Throw (VError "not a promise"), st)
    end.

Definition promise_catch (p : pid) (onR : closure) : M pid :=
  promise_then p None (Some onR).

Definition setTimeout (c : closure) (delay : nat) : M unit :=
  emit (EvSetTimeout delay) ;;
  fun st => (Ok tt, set_timers (timers st ++ [(clock st + delay, c)]) st).

Definition setImmediate (c : closure) : M unit :=
  emit EvSetImmediate ;;
  fun st => (Ok tt, set_immediates (immediates st ++ [c]) st).

Section Runtime.

Variable H : host.

(** [f(args)]: calling something that is not a function throws. *)
Definition call (f : value) (args : list value) : M value :=
  match f with
  | VFunction id =>
      fun st =>
        let st' := set_trace (trace st ++ [EvInvoke id args]) st in
        match H id (trace st) args with
        | Returns v => (Ok v, st')
        | Throws e => (Throw e, st')
        end
  | _ => throw (VError "callback is not a function")
  end.

(** The bodies of the arrow functions; [x] is the argument the runtime
    passes (the settled value for a then/catch handler). *)
Definition run_closure (c : closure) (x : value) : M value :=
  match c with
  | badDualMode_timer param callback p =>
      if strict_eq_str param "fail" then
        isf <- typeof_is_function callback ;;
        (if isf then call callback [VError "Failure!"] else ret VUndefined) ;;
        reject p (VError "Failure!") ;;
        ret VUndefined
      else
        isf <- typeof_is_function callback ;;
        (if isf then call callback [VNull; param] else ret VUndefined) ;;
        resolve p param ;;
        ret VUndefined
  | goodDualMode_callback_timer param callback =>
      if strict_eq_str param "fail" then
        call callback [VError "Failure!"] ;; ret VUndefined
      else
        call callback [VNull; param] ;; ret VUndefined
  | goodDualMode_promise_timer param p =>
      if strict_eq_str param "fail" then
        reject p (VError "Failure!") ;; ret VUndefined
      else
        resolve p param ;; ret VUndefined
  | dualModeFunction_timer param1 param2 p =>
      if strict_eq_str param1 "error" then
        reject p (VError "Operation failed") ;; ret VUndefined
      else
        ts <- date_now ;;
        resolve p (VObject [("param1", param1); ("param2", param2);
                            ("message", VStr ("Processed: " ++ to_string param1)%string);
                            ("timestamp", ts)]) ;;
        ret VUndefined
  | dualModeFunc_immediate param p =>
      if strict_eq_str param "err" then
        reject p (VError "Dual-mode function error") ;; ret VUndefined
      else
        resolve p (VStr ("Dual-mode result: " ++ to_string param)%string) ;;
        ret VUndefined
  | deliver_result callback => call callback [VNull; x]
  | deliver_error callback => call callback [x]
  | callbackOnlyFunc_immediate param callback =>
      if strict_eq_str param "err" then
        call callback [VError "Callback function error"] ;; ret VUndefined
      else
        call callback [VNull; VStr ("Callback result: " ++ to_string param)%string] ;;
        ret VUndefined
  | callbackOnlyFunction_timer param1 param2 callback =>
      if strict_eq_str param1 "error" then
        call callback [VError "Operation failed"] ;; ret VUndefined
      else
        ts <- date_now ;;
        call callback
          [VNull;
           VObject [("param1", param1); ("param2", param2);
                    ("message", VStr ("Processed: " ++ to_string param1)%string);
                    ("timestamp", ts)]] ;;
        ret VUndefined
  | versatileFunction_timer param p =>
      if strict_eq_str param "error" then
        reject p (VError "Failed") ;; ret VUndefined
      else
        resolve p (VStr ("Result: " ++ to_string param)%string) ;; ret VUndefined
  | caller_handler h => call h [x]
  end.

(** A promise job: a missing handler passes the outcome on; a handler
    that returns fulfils the derived promise, one that throws rejects it.
    A derived promise rejected this way, with no reaction of its own, is
    a rejection nobody handles ([settle] notes it, [step] reports it).
    (The values handlers return here are plain data, so adopting a
    returned promise is not modelled.) *)
Definition run_job (j : job) (st : loop_state) : loop_state :=
  match job_handler j with
  | None => snd (settle (job_target j) (job_input j) st)
  | Some c =>
      match run_closure c (outcome_value (job_input j)) st with
      | (Ok r, st') => snd (settle (job_target j) (Fulfilled r) st')
      | (Throw e, st') => snd (settle (job_target j) (Rejected e) st')
      end
  end.

(** A timer or immediate callback: an exception that escapes it is
    uncaught and ends the process. *)
Definition run_task (c : closure) (st : loop_state) : loop_state :=
  match run_closure c VUndefined st with
  | (Ok _, st') => st'
  | (Throw e, st') => set_crashed true (set_trace (trace st' ++ [EvUncaught e]) st')
  end.

(** The earliest timer, the first armed among equals, and the others. *)
Fixpoint earliest (ts : list (nat * closure)) : option (nat * closure * list (nat * closure)) :=
  match ts with
  | [] => None
  | (d, c) :: rest =>
      match earliest rest with
      | None => Some (d, c, [])
      | Some (d', c', rest') =>
          if Nat.leb d d' then Some (d, c, rest)
          else Some (d', c', (d, c) :: rest')
      end
  end.

(** One turn of the loop: promise jobs first.  When they are done and a
    rejected promise still has no handler, the rejection is reported as
    an uncaught error and the process ends (Node 15 and later).
    Otherwise the next immediate runs, then the next timer, for which the
    virtual clock moves forward. *)
Definition step (st : loop_state) : option loop_state :=
  if crashed st then None else
  match jobs st with
  | j :: js => Some (run_job j (set_jobs js st))
  | [] =>
      match rejections st with
      | (_, e) :: _ =>
          Some (set_crashed true (set_trace (trace st ++ [EvUncaught e]) st))
      | [] =>
          match immediates st with
          | c :: cs => Some (run_task c (set_immediates cs st))
          | [] =>
              match earliest (timers st) with
              | Some (due, c, rest) =>
                  Some (run_task c (set_clock (Nat.max due (clock st))
                                      (set_timers rest st)))
              | None => None
              end
          end
      end
  end.

Fixpoint run_loop (fuel : nat) (st : loop_state) : loop_state :=
  match fuel with
  | O => st
  | S n =>
      match step st with
      | None => st
      | Some st' => run_loop n st'
      end
  end.

(** Nothing is left to run. *)
Definition quiescent (st : loop_state) : Prop := step st = None.

(** A call expression: the callee runs, then control is back at the
    caller with the returned value. *)
Definition call_site (callee : M value) : M value :=
  v <- callee ;; emit (EvReturn v) ;; ret v.

(** ** The functions of the repository *)

(** examples/6-bad-vs-good-dualmode.js *)
Definition badDualMode (param callback : value) : M value :=
  p <- alloc_promise ;;
  setTimeout (badDualMode_timer param callback p) 10 ;;
  ret (VPromise p).

Definition goodDualMode (param callback : value) : M value :=
  isf <- typeof_is_function callback ;;
  if isf then
    setTimeout (goodDualMode_callback_timer param callback) 10 ;;
    ret VUndefined
  else
    p <- alloc_promise ;;
    setTimeout (goodDualMode_promise_timer param p) 10 ;;
    ret (VPromise p).

Definition goodDualModeSync (param callback : value) : M value :=
  isf <- typeof_is_function callback ;;
  if isf then
    call callback [VNull; param] ;;
    ret VUndefined
  else ret param.

(** The dual-mode example. *)
Definition dualModeFunction (param1 param2 callback : value) : M value :=
  work <- alloc_promise ;;
  setTimeout (dualModeFunction_timer param1 param2 work) 100 ;;
  isf <- typeof_is_function callback ;;
  if isf then
    d <- promise_then work (Some (deliver_result callback)) None ;;
    promise_catch d (deliver_error callback) ;;
    ret VUndefined
  else ret (VPromise work).

(** The test suite. *)
Definition callbackOnlyFunc (param callback : value) : M value :=
  setImmediate (callbackOnlyFunc_immediate param callback) ;;
  ret VUndefined.

Definition dualModeFunc (param callback : value) : M value :=
  work <- alloc_promise ;;
  setImmediate (dualModeFunc_immediate param work) ;;
  isf <- typeof_is_function callback ;;
  if isf then
    d <- promise_then work (Some (deliver_result callback)) None ;;
    promise_catch d (deliver_error callback) ;;
    ret VUndefined
  else ret (VPromise work).

(** examples/2-callback-only.js *)
Definition callbackOnlyFunction (param1 param2 callback : value) : M value :=
  setTimeout (callbackOnlyFunction_timer param1 param2 callback) 100 ;;
  ret VUndefined.

(** The anti-pattern: [if (callback)] and an unconditional [return work]. *)
Definition versatileFunction (param callback : value) : M value :=
  work <- alloc_promise ;;
  setTimeout (versatileFunction_timer param work) 100 ;;
  (if truthy callback then
     d <- promise_then work (Some (deliver_result callback)) None ;;
     promise_catch d (deliver_error callback) ;;
     ret tt
   else ret tt) ;;
  ret (VPromise work).

(** [target.then(onF, onR)] as the caller writes it.  A handler that is
    not a function is ignored; a target that is not a promise has no
    [then] to call.  Suspending on the handle with [await] is the same
    registration, with the rest of the caller as the two handlers. *)
Definition handler_of (h : value) : option closure :=
  if is_function h then Some (caller_handler h) else None.

Definition attach (target onF onR : value) : M value :=
  match target with
  | VPromise p =>
      d <- promise_then p (handler_of onF) (handler_of onR) ;;
      ret (VPromise d)
  | _ => throw (VError "Cannot read properties of undefined (reading 'then')")
  end.

(** A program: the main script runs to its end, then the loop turns.
    An exception that escapes the main script is uncaught as well. *)
Definition run_program (fuel : nat) (main : M value) : result value * loop_state :=
  match main boot with
  | (Ok v, st) => (Ok v, run_loop fuel st)
  | (Throw e, st) =>
      (Throw e, set_crashed true (set_trace (trace st ++ [EvUncaught e]) st))
  end.

(** The main script is one call. *)
Definition execute (fuel : nat) (callee : M value) : result value * loop_state :=
  run_program fuel (call_site callee).

(** The main script calls and registers two handlers on what it got. *)
Definition observe (callee : M value) (onF onR : value) : M value :=
  r <- call_site callee ;; attach r onF onR.

End Runtime.

Arguments strict_eq_str : simpl never.
Arguments to_string : simpl never.

(** ** Reading a trace *)

(** Every function call the runtime made, in order. *)
Fixpoint calls (tr : list event) : list (fid * list value) :=
  match tr with
  | [] => []
  | EvInvoke g args :: rest => (g, args) :: calls rest
  | _ :: rest => calls rest
  end.

(** The argument lists [f] was called with. *)
Definition invocations (f : fid) (tr : list event) : list (list value) :=
  map snd (filter (fun c => Nat.eqb (fst c) f) (calls tr)).

(** The settlements of promise [p]. *)
Fixpoint settlements (p : pid) (tr : list event) : list outcome :=
  match tr with
  | [] => []
  | EvSettle q o :: rest =>
      if Nat.eqb q p then o :: settlements p rest else settlements p rest
  | _ :: rest => settlements p rest
  end.

(** Outcomes reaching anyone: a function call or a settlement. *)
Definition is_delivery (e : event) : bool :=
  match e with EvInvoke _ _ | EvSettle _ _ => true | _ => false end.
Definition deliveries (tr : list event) : list event := filter is_delivery tr.

Definition is_scheduling (e : event) : bool :=
  match e with EvSetTimeout _ | EvSetImmediate => true | _ => false end.
Definition schedulings (tr : list event) : list event := filter is_scheduling tr.

Definition is_check (e : event) : bool :=
  match e with EvTypeof _ _ => true | _ => false end.
Definition checks (tr : list event) : list event := filter is_check tr.

Definition is_return (e : event) : bool :=
  match e with EvReturn _ => true | _ => false end.

(** The events before the first one satisfying [stop]. *)
Fixpoint before (stop : event -> bool) (tr : list event) : list event :=
  match tr with
  | [] => []
  | e :: rest => if stop e then [] else e :: before stop rest
  end.

(** What happened while the call was still running. *)
Definition before_return (tr : list event) : list event := before is_return tr.
(** What happened before the callback argument was inspected. *)
Definition before_check (tr : list event) : list event := before is_check tr.

(** Error-first delivery of an outcome through an argument list. *)
Definition delivers (o : outcome) (args : list value) : Prop :=
  match o with
  | Rejected e => arg 0 args = e /\ is_error e = true /\ arg 1 args = VUndefined
  | Fulfilled r => arg 0 args = VNull /\ arg 1 args = r
  end.

(** ** The outcome of the simulated work, function by function *)

Definition goodDualMode_outcome (param : value) : outcome :=
  if strict_eq_str param "fail" then Rejected (VError "Failure!")
  else Fulfilled param.

Definition badDualMode_outcome (param : value) : outcome :=
  if strict_eq_str param "fail" then Rejected (VError "Failure!")
  else Fulfilled param.

(** The object literal [{ param1, param2, message, timestamp }]. *)
Definition result_object (param1 param2 : value) (now : nat) : value :=
  VObject [("param1", param1); ("param2", param2);
           ("message", VStr ("Processed: " ++ to_string param1)%string);
           ("timestamp", VNum (Z.of_nat now))].

(** The timer of 100 ms fires at time 100 when the call is made at 0. *)
Definition dualModeFunction_outcome (param1 param2 : value) : outcome :=
  if strict_eq_str param1 "error" then Rejected (VError "Operation failed")
  else Fulfilled (result_object param1 param2 100).

Definition callbackOnlyFunction_outcome (param1 param2 : value) : outcome :=
  if strict_eq_str param1 "error" then Rejected (VError "Operation failed")
  else Fulfilled (result_object param1 param2 100).

Definition dualModeFunc_outcome (param : value) : outcome :=
  if strict_eq_str param "err" then Rejected (VError "Dual-mode function error")
  else Fulfilled (VStr ("Dual-mode result: " ++ to_string param)%string).

Definition versatileFunction_outcome (param : value) : outcome :=
  if strict_eq_str param "error" then Rejected (VError "Failed")
  else Fulfilled (VStr ("Result: " ++ to_string param)%string).

(** ** Callbacks used in examples *)

(** [(err, res) => {}] *)
Definition quiet : host := fun _ _ _ => Returns VUndefined.
(** [() => { throw new Error('boom'); }] *)
Definition boom : host := fun _ _ _ => Throws (VError "boom").
(** [(err, res) => { if (!err) throw new Error('boom'); }] *)
Definition picky : host :=
  fun _ _ args => if truthy (arg 0 args) then Returns VUndefined
                  else Throws (VError "boom").

(** ** The properties the contract talks about *)

(** A computation only ever appends to the trace. *)
Definition extends {A} (m : M A) : Prop :=
  forall st, exists l, trace (snd (m st)) = trace st ++ l.

(** The handler that sees outcome [o] when [g] is registered for success
    and [h] for failure. *)
Definition handler_call (g h : fid) (o : outcome) : fid * list value :=
  match o with
  | Fulfilled v => (g, [v])
  | Rejected e => (h, [e])
  end.

(** The call returned a pending promise of the heap, and handlers can be
    attached to it. *)
Definition live_handle (r : result value * loop_state) : Prop :=
  exists p,
    fst r = Ok (VPromise p) /\
    nth_error (heap (snd r)) p = Some (mkPromise None []) /\
    forall onF onR, exists d, fst (attach (VPromise p) onF onR (snd r)) = Ok (VPromise d).

(** One interface per call: with a callback the caller gets [undefined]
    and only the callback is ever called; without one nothing is called. *)
Definition exclusive (callback : value) (x : result value * loop_state) : Prop :=
  if is_function callback
  then fst x = Ok VUndefined /\
       Forall (fun c => VFunction (fst c) = callback) (calls (trace (snd x)))
  else calls (trace (snd x)) = [].

(** The callback argument is inspected once, inside the call, after the
    schedulings [armed_before] and no others. *)
Definition checked_once_in_call (callback : value) (armed_before : list event)
           (tr : list event) : Prop :=
  checks tr = [EvTypeof callback (is_function callback)] /\
  checks (before_return tr) = checks tr /\
  schedulings (before_check tr) = armed_before.

(** The call returned [undefined] and [f] was called once, with an error
    and nothing else. *)
Definition failure_reported (f : fid) (x : result value * loop_state) : Prop :=
  fst x = Ok VUndefined /\
  exists args,
    calls (trace (snd x)) = [(f, args)] /\
    is_error (arg 0 args) = true /\ arg 1 args = VUndefined.

(** The call returned the first promise of a fresh heap, it is the only
    promise there is, and it settled once, with [o]. *)
Definition settled_handle (o : outcome) (x : result value * loop_state) : Prop :=
  fst x = Ok (VPromise 0) /\
  heap (snd x) = [mkPromise (Some o) []] /\
  settlements 0 (trace (snd x)) = [o].

(** The errors that ended up uncaught (an exception that escaped a task,
    or the reason of a rejection nobody handled), in order. *)
Fixpoint uncaught (tr : list event) : list value :=
  match tr with
  | [] => []
  | EvUncaught e :: rest => e :: uncaught rest
  | _ :: rest => uncaught rest
  end.

(** What calling a value that is not a function throws. *)
Definition not_callable : value := VError "callback is not a function".

(** What is left uncaught when nobody handles outcome [o]. *)
Definition left_unhandled (o : outcome) : list value :=
  match o with
  | Rejected e => [e]
  | Fulfilled _ => []
  end.

(** A run in promise mode, in which the caller attaches nothing: a
    promise came back and it is the only promise there is (no chain was
    built on it), it settled with [o], and no function was called.  The
    only error that can end up uncaught is the failure of the work itself,
    as a rejection nobody handled; never the type error of a call of
    something that is not a function. *)
Definition promise_mode_run (o : outcome) (x : result value * loop_state) : Prop :=
  fst x = Ok (VPromise 0) /\
  calls (trace (snd x)) = [] /\
  heap (snd x) = [mkPromise (Some o) []] /\
  settlements 0 (trace (snd x)) = [o] /\
  uncaught (trace (snd x)) = left_unhandled o /\
  ~ In not_callable (uncaught (trace (snd x))).

(** The outcome reached the caller twice: once through the callback and
    once through the returned promise. *)
Definition double_delivery (f : fid) (o : outcome)
           (x : result value * loop_state) : Prop :=
  fst x = Ok (VPromise 0) /\
  (exists args, calls (trace (snd x)) = [(f, args)] /\ delivers o args) /\
  settlements 0 (trace (snd x)) = [o].

(** ** The other functions of the example files *)

Section OtherFunctions.

Variable H : host.

(** examples/6-bad-vs-good-dualmode.js; the deoptimization demo defines
    the same function under the name badDualMode. *)
Definition badDualModeSync (param callback : value) : M value :=
  isf <- typeof_is_function callback ;;
  (if isf then call H callback [VNull; param] ;; ret tt else ret tt) ;;
  ret param.

(** examples/3-promise-only.js.  The arrow function it hands to
    [setTimeout] is, word for word, the one of dualModeFunction. *)
Definition promiseOnlyFunction (param1 param2 : value) : M value :=
  p <- alloc_promise ;;
  setTimeout (dualModeFunction_timer param1 param2 p) 100 ;;
  ret (VPromise p).

(** [callee.then(onF).catch(onR)], the way the anti-pattern script uses
    what versatileFunction returns. *)
Definition then_catch (callee : M value) (onF onR : value) : M value :=
  r <- call_site callee ;;
  d <- attach r onF VUndefined ;;
  attach d VUndefined onR.

(** Two calls one after the other in the main script, as the test suite
    makes them to show what dualModeFunc returns. *)
Definition in_sequence (first second : M value) : M value :=
  call_site first ;; call_site second.

End OtherFunctions.

Definition callbackOnlyFunc_outcome (param : value) : outcome :=
  if strict_eq_str param "err" then Rejected (VError "Callback function error")
  else Fulfilled (VStr ("Callback result: " ++ to_string param)%string).

Definition promiseOnlyFunction_outcome (param1 param2 : value) : outcome :=
  if strict_eq_str param1 "error" then Rejected (VError "Operation failed")
  else Fulfilled (result_object param1 param2 100).

(** [(err, data) => data] *)
Definition echo : host := fun _ _ args => Returns (arg 1 args).

(** What reading [then] off [undefined] throws. *)
Definition no_then : value :=
  VError "Cannot read properties of undefined (reading 'then')".

(** The values the calls of the main script returned, in order. *)
Fixpoint returned (tr : list event) : list value :=
  match tr with
  | [] => []
  | EvReturn v :: rest => v :: returned rest
  | _ :: rest => returned rest
  end.

(** Everything of the runtime state but the trace. *)
Definition machine (st : loop_state) :=
  (clock st, heap st, timers st, immediates st, jobs st, crashed st,
   rejections st).

(** The state of promise [p], when there is one. *)
Definition promise_state (p : pid) (st : loop_state) : option (option outcome) :=
  match nth_error (heap st) p with
  | Some pr => Some (settled pr)
  | None => None
  end.

(** ** The scripts that mix await and callbacks

    examples/1-broken-mixing.js, the second half of
    examples/3-promise-only.js and promiseOnlyFunc of the test suite have
    arrow functions of their own, and async functions.  They run on the
    same model of the runtime, set up again over their own closures; an
    [await] stores the rest of the async function as the reaction. *)

Module Mixing.

(** [console.log] and [console.error] never throw; a call of either is
    recorded as a call of function 0, respectively 1. *)
Definition console_log_id : fid := 0.
Definition console_error_id : fid := 1.
(** The arrow functions the scripts pass as callbacks. *)
Definition brokenApproach_callback : fid := 2.
Definition worstCase_callback : fid := 3.
Definition badMixing_callback : fid := 4.

(** What those callbacks do: [(err, data) => { if (err) throw err; return
    data; }] in brokenApproach and badMixing, the same without the
    [return] in worstCase. *)
Definition script_host : host :=
  fun f _ args =>
    match f with
    | 2 | 4 => if truthy (arg 0 args) then Throws (arg 0 args)
               else Returns (arg 1 args)
    | 3 => if truthy (arg 0 args) then Throws (arg 0 args)
           else Returns VUndefined
    | _ => Returns VUndefined
    end.

Inductive closure : Type :=
(* examples/1-broken-mixing.js *)
| callbackBasedFunction_timer (param callback : value)
| brokenApproach_resume
| brokenApproach_catch
| worstCase_resume
| worstCase_catch
| script_timer
(* examples/3-promise-only.js *)
| badErrorHandling_timer (param callback : value)
| callbackOnly_timer (param callback : value)
| badMixing_resume
| badMixing_catch
(* the test suite *)
| promiseOnlyFunc_immediate (param : value) (p : pid)
(* a handler the caller attaches with then / catch *)
| caller_handler (h : value).

Record reaction : Type := mkReaction {
  on_fulfilled : option closure;
  on_rejected : option closure;
  derived : pid
}.

Record promise : Type := mkPromise {
  settled : option outcome;
  reactions : list reaction
}.

Record job : Type := mkJob {
  job_handler : option closure;
  job_input : outcome;
  job_target : pid
}.

Record loop_state : Type := mkLoop {
  clock : nat;
  heap : list promise;
  timers : list (nat * closure);
  immediates : list closure;
  jobs : list job;
  trace : list event;
  crashed : bool;
  rejections : list (pid * value)
}.

Definition boot : loop_state := mkLoop 0 [] [] [] [] [] false [].

Definition set_clock (t : nat) (st : loop_state) : loop_state :=
  mkLoop t (heap st) (timers st) (immediates st) (jobs st) (trace st) (crashed st)
    (rejections st).
Definition set_heap (h : list promise) (st : loop_state) : loop_state :=
  mkLoop (clock st) h (timers st) (immediates st) (jobs st) (trace st) (crashed st)
    (rejections st).
Definition set_timers (ts : list (nat * closure)) (st : loop_state) : loop_state :=
  mkLoop (clock st) (heap st) ts (immediates st) (jobs st) (trace st) (crashed st)
    (rejections st).
Definition set_immediates (cs : list closure) (st : loop_state) : loop_state :=
  mkLoop (clock st) (heap st) (timers st) cs (jobs st) (trace st) (crashed st)
    (rejections st).
Definition set_jobs (js : list job) (st : loop_state) : loop_state :=
  mkLoop (clock st) (heap st) (timers st) (immediates st) js (trace st) (crashed st)
    (rejections st).
Definition set_trace (tr : list event) (st : loop_state) : loop_state :=
  mkLoop (clock st) (heap st) (timers st) (immediates st) (jobs st) tr (crashed st)
    (rejections st).
Definition set_crashed (b : bool) (st : loop_state) : loop_state :=
  mkLoop (clock st) (heap st) (timers st) (immediates st) (jobs st) (trace st) b
    (rejections st).
Definition set_rejections (rs : list (pid * value)) (st : loop_state) : loop_state :=
  mkLoop (clock st) (heap st) (timers st) (immediates st) (jobs st) (trace st)
    (crashed st) rs.

Definition M (A : Type) : Type := loop_state -> result A * loop_state.

Definition ret {A} (a : A) : M A := fun st => (Ok a, st).

Definition bind {A B} (m : M A) (k : A -> M B) : M B :=
  fun st =>
    match m st with
    | (Ok a, st') => k a st'
    | (Throw e, st') => (Throw e, st')
    end.

(** [try { m } catch (e) { handler e }] *)
Definition try_catch {A} (m : M A) (handler : value -> M A) : M A :=
  fun st =>
    match m st with
    | (Ok a, st') => (Ok a, st')
    | (Throw e, st') => handler e st'
    end.

Definition throw {A} (e : value) : M A := fun st => (Throw e, st).

Declare Scope mixing_scope.
Notation "x <- m ;; k" := (bind m (fun x => k))
  (at level 61, m at next level, right associativity) : mixing_scope.
Notation "m ;; k" := (bind m (fun _ => k))
  (at level 61, right associativity) : mixing_scope.
#[local] Open Scope mixing_scope.

Definition emit (e : event) : M unit :=
  fun st => (Ok tt, set_trace (trace st ++ [e]) st).

Definition console_log (args : list value) : M unit :=
  emit (EvInvoke console_log_id args).
Definition console_error (args : list value) : M unit :=
  emit (EvInvoke console_error_id args).

Definition alloc_promise : M pid :=
  fun st =>
    let p := List.length (heap st) in
    (Ok p, set_trace (trace st ++ [EvNewPromise p])
             (set_heap (heap st ++ [mkPromise None []]) st)).

Definition job_of (o : outcome) (r : reaction) : job :=
  mkJob (match o with
         | Fulfilled _ => on_fulfilled r
         | Rejected _ => on_rejected r
         end) o (derived r).

Definition unhandled (p : pid) (o : outcome) (rs : list reaction)
  : list (pid * value) :=
  match o, rs with
  | Rejected e, [] => [(p, e)]
  | _, _ => []
  end.

Definition handle (p : pid) (l : list (pid * value)) : list (pid * value) :=
  filter (fun r => negb (Nat.eqb (fst r) p)) l.

Definition settle (p : pid) (o : outcome) : M unit :=
  fun st =>
    match nth_error (heap st) p with
    | Some (mkPromise None rs) =>
        (Ok tt,
         set_rejections (rejections st ++ unhandled p o rs)
           (set_trace (trace st ++ [EvSettle p o])
              (set_jobs (jobs st ++ map (job_of o) rs)
                 (set_heap (update p (mkPromise (Some o) []) (heap st)) st))))
    | _ => (Ok tt, st)
    end.

Definition resolve (p : pid) (v : value) : M unit := settle p (Fulfilled v).
Definition reject (p : pid) (e : value) : M unit := settle p (Rejected e).

(** The reaction [r] on promise [p]: stored while [p] is pending, queued
    as a job when it is settled. *)
Definition react (p : pid) (r : reaction) : M unit :=
  fun st =>
    match nth_error (heap st) p with
    | Some (mkPromise None rs) =>
        (Ok tt, set_heap (update p (mkPromise None (rs ++ [r])) (heap st)) st)
    | Some (mkPromise (Some o) _) =>
        (Ok tt, set_rejections (handle p (rejections st))
                  (set_jobs (jobs st ++ [job_of o r]) st))
    | None => (Throw (VError "not a promise"), st)
    end.

Definition promise_then (p : pid) (onF onR : option closure) : M pid :=
  d <- alloc_promise ;;
  react p (mkReaction onF onR d) ;;
  ret d.

(** [await v] inside the async function whose promise is [self]: the rest
    of the function is [resume], its catch block [rescue].  A value that
    is not a promise resumes the function in the next job. *)
Definition await (v : value) (resume rescue : closure) (self : pid) : M unit :=
  match v with
  | VPromise q => react q (mkReaction (Some resume) (Some rescue) self)
  | _ =>
      fun st =>
        (Ok tt, set_jobs (jobs st ++ [mkJob (Some resume) (Fulfilled v) self]) st)
  end.

Definition setTimeout (c : closure) (delay : nat) : M unit :=
  emit (EvSetTimeout delay) ;;
  fun st => (Ok tt, set_timers (timers st ++ [(clock st + delay, c)]) st).

Definition setImmediate (c : closure) : M unit :=
  emit EvSetImmediate ;;
  fun st => (Ok tt, set_immediates (immediates st ++ [c]) st).

(** examples/1-broken-mixing.js *)
Definition callbackBasedFunction (param callback : value) : M value :=
  setTimeout (callbackBasedFunction_timer param callback) 100 ;;
  ret VUndefined.

Definition brokenApproach : M value :=
  self <- alloc_promise ;;
  try_catch
    (result <- callbackBasedFunction (VStr "test") (VFunction brokenApproach_callback) ;;
     await result brokenApproach_resume brokenApproach_catch self)
    (fun error =>
       console_error [VStr "Caught:"; error] ;; resolve self VUndefined) ;;
  ret (VPromise self).

Definition worstCase : M value :=
  self <- alloc_promise ;;
  try_catch
    (result <- callbackBasedFunction (VStr "error") (VFunction worstCase_callback) ;;
     await result worstCase_resume worstCase_catch self)
    (fun error =>
       console_error [VStr "This never runs:"; error] ;; resolve self VUndefined) ;;
  ret (VPromise self).

(** examples/3-promise-only.js, anti-patterns 2 and 3 *)
Definition badErrorHandling (param callback : value) : M value :=
  setTimeout (badErrorHandling_timer param callback) 100 ;;
  ret VUndefined.

Definition callbackOnly (param callback : value) : M value :=
  setTimeout (callbackOnly_timer param callback) 100 ;;
  ret VUndefined.

Definition badMixing : M value :=
  self <- alloc_promise ;;
  try_catch
    (result <- callbackOnly (VStr "test") (VFunction badMixing_callback) ;;
     await result badMixing_resume badMixing_catch self)
    (fun error =>
       console_error [VStr "Caught:"; error] ;; resolve self VUndefined) ;;
  ret (VPromise self).

(** The test suite *)
Definition promiseOnlyFunc (param : value) : M value :=
  p <- alloc_promise ;;
  setImmediate (promiseOnlyFunc_immediate param p) ;;
  ret (VPromise p).

Section Runtime.

Variable H : host.

Definition call (f : value) (args : list value) : M value :=
  match f with
  | VFunction id =>
      fun st =>
        let st' := set_trace (trace st ++ [EvInvoke id args]) st in
        match H id (trace st) args with
        | Returns v => (Ok v, st')
        | Throws e => (Throw e, st')
        end
  | _ => throw (VError "callback is not a function")
  end.

(** The bodies of the arrow functions and of the tails of the async
    functions; [x] is what the runtime passes. *)
Definition run_closure (c : closure) (x : value) : M value :=
  match c with
  | callbackBasedFunction_timer param callback =>
      if strict_eq_str param "error" then
        call callback [VError "Something failed"] ;; ret VUndefined
      else
        call callback [VNull; VStr ("Success: " ++ to_string param)%string] ;;
        ret VUndefined
  | brokenApproach_resume =>
      try_catch
        (console_log [VStr "Result:"; x] ;; ret VUndefined)
        (fun error => console_error [VStr "Caught:"; error] ;; ret VUndefined)
  | brokenApproach_catch =>
      console_error [VStr "Caught:"; x] ;; ret VUndefined
  | worstCase_resume => ret VUndefined
  | worstCase_catch =>
      console_error [VStr "This never runs:"; x] ;; ret VUndefined
  | script_timer =>
      console_log [VStr (String (Ascii.ascii_of_nat 10) "=== WORST CASE (Unhandled Error) ===")] ;;
      worstCase ;;
      ret VUndefined
  | badErrorHandling_timer param callback =>
      if strict_eq_str param "error" then
        call callback [VError "Oops!"] ;; ret VUndefined
      else ret VUndefined
  | callbackOnly_timer param callback =>
      call callback [VNull; VStr ("Result: " ++ to_string param)%string] ;;
      ret VUndefined
  | badMixing_resume =>
      try_catch
        (console_log [VStr "Result:"; x] ;; ret VUndefined)
        (fun error => console_error [VStr "Caught:"; error] ;; ret VUndefined)
  | badMixing_catch =>
      console_error [VStr "Caught:"; x] ;; ret VUndefined
  | promiseOnlyFunc_immediate param p =>
      if strict_eq_str param "err" then
        reject p (VError "Promise function error") ;; ret VUndefined
      else
        resolve p (VStr ("Promise result: " ++ to_string param)%string) ;;
        ret VUndefined
  | caller_handler h => call h [x]
  end.

Definition run_job (j : job) (st : loop_state) : loop_state :=
  match job_handler j with
  | None => snd (settle (job_target j) (job_input j) st)
  | Some c =>
      match run_closure c (outcome_value (job_input j)) st with
      | (Ok r, st') => snd (settle (job_target j) (Fulfilled r) st')
      | (Throw e, st') => snd (settle (job_target j) (Rejected e) st')
      end
  end.

Definition run_task (c : closure) (st : loop_state) : loop_state :=
  match run_closure c VUndefined st with
  | (Ok _, st') => st'
  | (Throw e, st') => set_crashed true (set_trace (trace st' ++ [EvUncaught e]) st')
  end.

Fixpoint earliest (ts : list (nat * closure)) : option (nat * closure * list (nat * closure)) :=
  match ts with
  | [] => None
  | (d, c) :: rest =>
      match earliest rest with
      | None => Some (d, c, [])
      | Some (d', c', rest') =>
          if Nat.leb d d' then Some (d, c, rest)
          else Some (d', c', (d, c) :: rest')
      end
  end.

Definition step (st : loop_state) : option loop_state :=
  if crashed st then None else
  match jobs st with
  | j :: js => Some (run_job j (set_jobs js st))
  | [] =>
      match rejections st with
      | (_, e) :: _ =>
          Some (set_crashed true (set_trace (trace st ++ [EvUncaught e]) st))
      | [] =>
          match immediates st with
          | c :: cs => Some (run_task c (set_immediates cs st))
          | [] =>
              match earliest (timers st) with
              | Some (due, c, rest) =>
                  Some (run_task c (set_clock (Nat.max due (clock st))
                                      (set_timers rest st)))
              | None => None
              end
          end
      end
  end.

Fixpoint run_loop (fuel : nat) (st : loop_state) : loop_state :=
  match fuel with
  | O => st
  | S n =>
      match step st with
      | None => st
      | Some st' => run_loop n st'
      end
  end.

Definition quiescent (st : loop_state) : Prop := step st = None.

Definition call_site (callee : M value) : M value :=
  v <- callee ;; emit (EvReturn v) ;; ret v.

Definition handler_of (h : value) : option closure :=
  if is_function h then Some (caller_handler h) else None.

Definition attach (target onF onR : value) : M value :=
  match target with
  | VPromise p =>
      d <- promise_then p (handler_of onF) (handler_of onR) ;;
      ret (VPromise d)
  | _ => throw (VError "Cannot read properties of undefined (reading 'then')")
  end.

Definition run_program (fuel : nat) (main : M value) : result value * loop_state :=
  match main boot with
  | (Ok v, st) => (Ok v, run_loop fuel st)
  | (Throw e, st) =>
      (Throw e, set_crashed true (set_trace (trace st ++ [EvUncaught e]) st))
  end.

Definition execute (fuel : nat) (callee : M value) : result value * loop_state :=
  run_program fuel (call_site callee).

Definition observe (callee : M value) (onF onR : value) : M value :=
  r <- call_site callee ;; attach r onF onR.

(** examples/1-broken-mixing.js, the script itself *)
Definition broken_mixing_script : M value :=
  console_log [VStr "=== BROKEN APPROACH ==="] ;;
  call_site brokenApproach ;;
  setTimeout script_timer 300 ;;
  ret VUndefined.

End Runtime.

Definition callbackBasedFunction_outcome (param : value) : outcome :=
  if strict_eq_str param "error" then Rejected (VError "Something failed")
  else Fulfilled (VStr ("Success: " ++ to_string param)%string).

Definition promiseOnlyFunc_outcome (param : value) : outcome :=
  if strict_eq_str param "err" then Rejected (VError "Promise function error")
  else Fulfilled (VStr ("Promise result: " ++ to_string param)%string).

End Mixing.

(** ** Facts about the runtime *)

Lemma is_function_inv (v : value) :
  is_function v = true -> exists f, v = VFunction f.
Proof.
  destruct v; cbn; try discriminate. intros _. now eexists.
Qed.

Lemma lookup_fresh {A} (h t : list A) (x : A) :
  nth_error (h ++ x :: t) (List.length h) = Some x.
Proof.
  rewrite nth_error_app2 by lia. now rewrite Nat.sub_diag.
Qed.

Lemma before_app (stop : event -> bool) (tr l : list event) :
  existsb stop tr = true -> before stop (tr ++ l) = before stop tr.
Proof.
  induction tr as [|e tr IH]; cbn.
  - discriminate.
  - destruct (stop e); cbn; intros Hs.
    + reflexivity.
    + f_equal. now apply IH.
Qed.

Lemma calls_app (tr l : list event) : calls (tr ++ l) = calls tr ++ calls l.
Proof.
  induction tr as [|e tr IH]; cbn.
  - reflexivity.
  - destruct e; cbn; now rewrite ?IH.
Qed.

Lemma settlements_app (p : pid) (tr l : list event) :
  settlements p (tr ++ l) = settlements p tr ++ settlements p l.
Proof.
  induction tr as [|e tr IH]; cbn.
  - reflexivity.
  - destruct e; cbn; rewrite ?IH; try reflexivity.
    now destruct (Nat.eqb p0 p).
Qed.

(** A settled promise ignores every later [resolve] and [reject]. *)
Lemma settle_again_is_silent (p : pid) (o o' : outcome) (rs : list reaction)
      (st : loop_state) :
  nth_error (heap st) p = Some (mkPromise (Some o) rs) ->
  settle p o' st = (Ok tt, st).
Proof.
  intros Hp. unfold settle. now rewrite Hp.
Qed.

(** *** The trace only grows *)

Lemma extends_ret {A} (a : A) : extends (ret a).
Proof. intros st. exists []. cbn. now rewrite app_nil_r. Qed.

Lemma extends_throw {A} (e : value) : extends (@throw A e).
Proof. intros st. exists []. cbn. now rewrite app_nil_r. Qed.

Lemma extends_bind {A B} (m : M A) (k : A -> M B) :
  extends m -> (forall a, extends (k a)) -> extends (bind m k).
Proof.
  intros Hm Hk st. unfold bind.
  destruct (Hm st) as [l1 E1].
  destruct (m st) as [[a|e] st1]; cbn in E1 |- *.
  - destruct (Hk a st1) as [l2 E2]. exists (l1 ++ l2).
    now rewrite E2, E1, app_assoc.
  - now exists l1.
Qed.

Lemma extends_emit (e : event) : extends (emit e).
Proof. intros st. now exists [e]. Qed.

Lemma extends_date_now : extends date_now.
Proof. intros st. exists []. cbn. now rewrite app_nil_r. Qed.

Lemma extends_typeof (v : value) : extends (typeof_is_function v).
Proof.
  apply extends_bind; [apply extends_emit | intros; apply extends_ret].
Qed.

Lemma extends_alloc : extends alloc_promise.
Proof. intros st. now eexists [_]. Qed.

Lemma extends_settle (p : pid) (o : outcome) : extends (settle p o).
Proof.
  intros st. unfold settle.
  destruct (nth_error (heap st) p) as [[[o'|] rs]|]; cbn.
  - exists []. now rewrite app_nil_r.
  - now eexists [_].
  - exists []. now rewrite app_nil_r.
Qed.

Lemma extends_then (p : pid) (onF onR : option closure) :
  extends (promise_then p onF onR).
Proof.
  apply extends_bind; [apply extends_alloc|].
  intros d st. exists [].
  destruct (nth_error (heap st) p) as [[[o'|] rs]|]; cbn; now rewrite app_nil_r.
Qed.

Lemma extends_setTimeout (c : closure) (d : nat) : extends (setTimeout c d).
Proof. intros st. now eexists [_]. Qed.

Lemma extends_setImmediate (c : closure) : extends (setImmediate c).
Proof. intros st. now eexists [_]. Qed.

Lemma extends_call (H : host) (f : value) (args : list value) :
  extends (call H f args).
Proof.
  destruct f; try apply extends_throw.
  intros st. cbn. exists [EvInvoke f args].
  now destruct (H f (trace st) args).
Qed.

Create HintDb grows.
#[local] Hint Resolve extends_ret extends_throw extends_emit extends_date_now
  extends_typeof extends_alloc extends_settle extends_then extends_setTimeout
  extends_setImmediate extends_call : grows.

Ltac grows :=
  repeat first
    [ apply extends_bind; [|intros]
    | match goal with |- extends (if ?b then _ else _) => destruct b end
    | solve [unfold resolve, reject, promise_catch; auto with grows] ].

Lemma extends_run_closure (H : host) (c : closure) (x : value) :
  extends (run_closure H c x).
Proof.
  destruct c; cbn [run_closure];
    try match goal with
        | |- extends (if ?b then _ else _) => destruct b
        end; grows.
Qed.

Lemma run_job_extends (H : host) (j : job) (st : loop_state) :
  exists l, trace (run_job H j st) = trace st ++ l.
Proof.
  unfold run_job. destruct (job_handler j) as [c|].
  - destruct (extends_run_closure H c (outcome_value (job_input j)) st) as [l1 E1].
    destruct (run_closure H c (outcome_value (job_input j)) st) as [[r|e] st1];
      cbn in E1.
    + destruct (extends_settle (job_target j) (Fulfilled r) st1) as [l2 E2].
      exists (l1 ++ l2). now rewrite E2, E1, app_assoc.
    + destruct (extends_settle (job_target j) (Rejected e) st1) as [l2 E2].
      exists (l1 ++ l2). now rewrite E2, E1, app_assoc.
  - apply extends_settle.
Qed.

Lemma run_task_extends (H : host) (c : closure) (st : loop_state) :
  exists l, trace (run_task H c st) = trace st ++ l.
Proof.
  unfold run_task.
  destruct (extends_run_closure H c VUndefined st) as [l1 E1].
  destruct (run_closure H c VUndefined st) as [[r|e] st1]; cbn in E1 |- *.
  - now exists l1.
  - exists (l1 ++ [EvUncaught e]). now rewrite E1, app_assoc.
Qed.

Lemma step_extends (H : host) (st st' : loop_state) :
  step H st = Some st' -> exists l, trace st' = trace st ++ l.
Proof.
  unfold step. destruct (crashed st); [discriminate|].
  destruct (jobs st) as [|j js].
  - destruct (rejections st) as [|[p e] rs].
    + destruct (immediates st) as [|c cs].
      * destruct (earliest (timers st)) as [[[due c] rest]|]; [|discriminate].
        intros [= <-].
        apply (run_task_extends H c (set_clock _ (set_timers rest st))).
      * intros [= <-]. apply (run_task_extends H c (set_immediates cs st)).
    + intros [= <-]. now exists [EvUncaught e].
  - intros [= <-]. apply (run_job_extends H j (set_jobs js st)).
Qed.

(** Whatever the loop runs, the history so far stays as it was. *)
Lemma run_loop_extends (H : host) (n : nat) (st : loop_state) :
  exists l, trace (run_loop H n st) = trace st ++ l.
Proof.
  revert st. induction n as [|n IH]; intros st; cbn [run_loop].
  - exists []. now rewrite app_nil_r.
  - destruct (step H st) as [st'|] eqn:E.
    + destruct (step_extends H st st' E) as [l1 E1].
      destruct (IH st') as [l2 E2].
      exists (l1 ++ l2). now rewrite E2, E1, app_assoc.
    + exists []. now rewrite app_nil_r.
Qed.

Lemma run_loop_O (H : host) (st : loop_state) : run_loop H 0 st = st.
Proof. reflexivity. Qed.

Lemma run_loop_S (H : host) (n : nat) (st : loop_state) :
  run_loop H (S n) st =
  match step H st with None => st | Some st' => run_loop H n st' end.
Proof. reflexivity. Qed.

Lemma run_loop_quiescent (H : host) (n : nat) (st : loop_state) :
  quiescent H st -> run_loop H n st = st.
Proof.
  unfold quiescent. destruct n as [|n]; cbn [run_loop]; intros Hq.
  - reflexivity.
  - now rewrite Hq.
Qed.

Lemma run_loop_add (H : host) (n m : nat) (st : loop_state) :
  run_loop H (n + m) st = run_loop H m (run_loop H n st).
Proof.
  revert st. induction n as [|n IH]; intros st; cbn [Nat.add run_loop].
  - reflexivity.
  - destruct (step H st) as [st'|] eqn:E.
    + apply IH.
    + symmetry. apply run_loop_quiescent. exact E.
Qed.

(** Once the loop is at rest its trace is the whole history: the trace
    after any number of turns is a prefix of it. *)
Lemma history_complete (H : host) (k fuel : nat) (st : loop_state) :
  quiescent H (run_loop H k st) ->
  exists l, trace (run_loop H k st) = trace (run_loop H fuel st) ++ l.
Proof.
  intros Hq.
  destruct (run_loop_extends H k (run_loop H fuel st)) as [l E].
  exists l. rewrite <- E, <- run_loop_add, Nat.add_comm, run_loop_add.
  now rewrite (run_loop_quiescent H fuel _ Hq).
Qed.

(** ** Symbolic execution *)

Ltac crank :=
  repeat first
    [ progress (cbv -[run_loop quiescent strict_eq_str to_string String.append is_function])
    | match goal with
      | |- context [is_function (VFunction ?f)] =>
          change (is_function (VFunction f)) with true
      | |- context [is_function VUndefined] =>
          change (is_function VUndefined) with false
      | Hc : is_function ?v = _ |- context [is_function ?v] => rewrite Hc
      | Hn : forall h a, exists v, ?H ?f h a = Returns v
        |- context [match ?H ?f ?t ?a with Returns _ => _ | Throws _ => _ end] =>
          let v := fresh "v" in let E := fresh "E" in
          destruct (Hn t a) as [v E]; rewrite E
      | |- context [strict_eq_str (VStr ?a) ?b] =>
          let r := eval cbv in (strict_eq_str (VStr a) b) in
          match r with true => idtac | false => idtac end;
          change (strict_eq_str (VStr a) b) with r
      | Hs : strict_eq_str ?v ?s = _ |- context [strict_eq_str ?v ?s] =>
          rewrite Hs
      | |- context [if strict_eq_str ?v ?s then _ else _] =>
          destruct (strict_eq_str v s) eqn:?
      | Hh : ?h ?f ?t ?a = _
        |- context [match ?h ?f ?t ?a with Returns _ => _ | Throws _ => _ end] =>
          rewrite Hh
      | |- context [match ?h ?f ?t ?a with Returns _ => _ | Throws _ => _ end] =>
          destruct (h f t a) eqn:?
      end
    | rewrite run_loop_S
    | rewrite run_loop_O
    | rewrite run_loop_quiescent by reflexivity ].


Lemma length_update {A} (i : nat) (x : A) (l : list A) :
  List.length (update i x l) = List.length l.
Proof.
  revert i. induction l as [|a l IH]; intros [|i]; cbn; auto.
Qed.

(** [then] on a promise of the heap always yields a derived promise. *)
Lemma then_ok (p : pid) (onF onR : option closure) (st : loop_state) :
  p < List.length (heap st) ->
  exists st',
    promise_then p onF onR st = (Ok (List.length (heap st)), st') /\
    List.length (heap st') = S (List.length (heap st)).
Proof.
  intros Hp. unfold promise_then, bind, alloc_promise. cbn.
  destruct (nth_error (heap st ++ [mkPromise None []]) p) as [[[o|] rs]|] eqn:E.
  - eexists; split; [reflexivity|]. cbn. rewrite length_app. cbn. lia.
  - eexists; split; [reflexivity|]. cbn. rewrite length_update, length_app. cbn. lia.
  - apply nth_error_None in E. rewrite length_app in E. cbn in E. lia.
Qed.

Lemma live_handle_intro (r : result value * loop_state) (p : pid) :
  fst r = Ok (VPromise p) ->
  nth_error (heap (snd r)) p = Some (mkPromise None []) ->
  live_handle r.
Proof.
  intros Hr Hp. exists p. split; [exact Hr|]. split; [exact Hp|].
  intros onF onR. unfold attach, bind.
  destruct (then_ok p (handler_of onF) (handler_of onR) (snd r)) as [st' [E _]].
  - apply nth_error_Some. now rewrite Hp.
  - rewrite E. now eexists.
Qed.

(** Callback mode of the promise-consuming functions: [work.then(...)]
    and [.catch(...)] both succeed and the call returns [undefined]. *)
Lemma consume_void (callback : value) (work : pid) (st : loop_state) :
  work < List.length (heap st) ->
  fst ((d <- promise_then work (Some (deliver_result callback)) None ;;
        promise_catch d (deliver_error callback) ;;
        ret VUndefined) st) = Ok VUndefined.
Proof.
  intros Hw. unfold bind, promise_catch.
  destruct (then_ok work (Some (deliver_result callback)) None st Hw)
    as [st1 [E1 L1]].
  rewrite E1.
  destruct (then_ok (List.length (heap st)) None (Some (deliver_error callback)) st1)
    as [st2 [E2 _]]; [lia|].
  now rewrite E2.
Qed.

Lemma fst_call_site (callee : M value) (st : loop_state) :
  fst (call_site callee st) = fst (callee st).
Proof.
  unfold call_site, bind. now destruct (callee st) as [[v|e] s].
Qed.

Lemma dualModeFunction_void (st : loop_state) (param1 param2 : value) (f : fid) :
  fst (call_site (dualModeFunction param1 param2 (VFunction f)) st) = Ok VUndefined.
Proof.
  rewrite fst_call_site.
  apply (consume_void (VFunction f) (List.length (heap st))
           (snd ((work <- alloc_promise ;;
                  setTimeout (dualModeFunction_timer param1 param2 work) 100 ;;
                  typeof_is_function (VFunction f)) st))).
  cbn. rewrite length_app. cbn. lia.
Qed.

Lemma dualModeFunc_void (st : loop_state) (param : value) (f : fid) :
  fst (call_site (dualModeFunc param (VFunction f)) st) = Ok VUndefined.
Proof.
  rewrite fst_call_site.
  apply (consume_void (VFunction f) (List.length (heap st))
           (snd ((work <- alloc_promise ;;
                  setImmediate (dualModeFunc_immediate param work) ;;
                  typeof_is_function (VFunction f)) st))).
  cbn. rewrite length_app. cbn. lia.
Qed.

Ltac split_mode cb :=
  let Hm := fresh "Hmode" in
  destruct (is_function cb) eqn:Hm;
  [ let f := fresh "f" in
    destruct (is_function_inv cb Hm) as [f ->]; clear Hm
  | ].

Lemma execute_history (H : host) (k fuel : nat) (callee : M value) :
  quiescent H (snd (execute H k callee)) ->
  fst (execute H fuel callee) = fst (execute H k callee) /\
  exists l, trace (snd (execute H k callee))
            = trace (snd (execute H fuel callee)) ++ l.
Proof.
  unfold execute, run_program.
  destruct (call_site callee boot) as [[v|e] st]; cbn; intros Hq.
  - split; [reflexivity|]. now apply history_complete.
  - split; [reflexivity|]. exists []. now rewrite app_nil_r.
Qed.

(** What holds of the whole history holds after any number of turns. *)
Lemma exclusive_at_any_time (H : host) (k fuel : nat) (callee : M value)
      (callback : value) :
  quiescent H (snd (execute H k callee)) ->
  exclusive callback (execute H k callee) ->
  exclusive callback (execute H fuel callee).
Proof.
  intros Hq. destruct (execute_history H k fuel callee Hq) as [Er [l El]].
  unfold exclusive. rewrite El, Er, calls_app.
  destruct (is_function callback).
  - intros [Hr Hc]. split; [exact Hr|]. now apply Forall_app in Hc.
  - intros Hc. now apply app_eq_nil in Hc.
Qed.

Lemma goodDualMode_rests (H : host) (param callback : value) :
  quiescent H (snd (execute H 2 (goodDualMode param callback))).
Proof. split_mode callback; crank; reflexivity. Qed.

Lemma dualModeFunction_rests (H : host) (param1 param2 callback : value) :
  quiescent H (snd (execute H 6 (dualModeFunction param1 param2 callback))).
Proof. split_mode callback; crank; reflexivity. Qed.

Lemma dualModeFunc_rests (H : host) (param callback : value) :
  quiescent H (snd (execute H 6 (dualModeFunc param callback))).
Proof. split_mode callback; crank; reflexivity. Qed.

(** The sibling that calls the callback from the timer itself delivers
    once, whatever the callback does. *)
Lemma goodDualMode_single_delivery (H : host) (param : value) (f : fid)
      (extra : nat) :
  exists args,
    calls (trace (snd (execute H (2 + extra) (goodDualMode param (VFunction f)))))
    = [(f, args)].
Proof. crank; now eexists. Qed.

(** Without a callback the one promise settles once, with the outcome of
    the work. *)
Lemma promise_mode_settles_once (H : host) (param param2 : value) (extra : nat) :
  settlements 0 (trace (snd (execute H (2 + extra) (goodDualMode param VUndefined))))
  = [goodDualMode_outcome param] /\
  settlements 0 (trace (snd (execute H (2 + extra)
                               (dualModeFunction param param2 VUndefined))))
  = [dualModeFunction_outcome param param2] /\
  settlements 0 (trace (snd (execute H (2 + extra) (dualModeFunc param VUndefined))))
  = [dualModeFunc_outcome param].
Proof. repeat split; crank; reflexivity. Qed.

(** The defect behind C3 in general: whenever the callback throws while
    it is handed the result, [.catch] hands it what it threw. *)
Lemma then_catch_chain_redelivers (H : host) (param : value) (f : fid)
      (e : value) (extra : nat) :
  strict_eq_str param "err" = false ->
  (forall history,
     H f history [VNull; VStr ("Dual-mode result: " ++ to_string param)%string]
     = Throws e) ->
  calls (trace (snd (execute H (6 + extra) (dualModeFunc param (VFunction f)))))
  = [(f, [VNull; VStr ("Dual-mode result: " ++ to_string param)%string]);
     (f, [e])].
Proof.
  intros Hok Hthrow. crank;
    try match goal with
        | Hh : H f _ [VNull; _] = Returns _ |- _ =>
            rewrite Hthrow in Hh; discriminate
        | Hh : H f _ [VNull; _] = Throws _ |- _ =>
            rewrite Hthrow in Hh; injection Hh as <-
        end;
    reflexivity.
Qed.

Lemma returned_trace (callee : M value) (st st1 : loop_state) (v : value) :
  call_site callee st = (Ok v, st1) -> existsb is_return (trace st1) = true.
Proof.
  unfold call_site, bind. destruct (callee st) as [[a|e] s]; cbn; [|discriminate].
  intros [= <- <-]. cbn. rewrite existsb_app. cbn. apply orb_true_r.
Qed.

(** What happened inside the call is fixed when the call returns. *)
Lemma sync_part_fixed (H : host) (fuel : nat) (callee : M value) (v : value) :
  fst (call_site callee boot) = Ok v ->
  before_return (trace (snd (execute H fuel callee)))
  = before_return (trace (snd (call_site callee boot))).
Proof.
  unfold execute, run_program.
  destruct (call_site callee boot) as [[a|e] st1] eqn:E; cbn; [|discriminate].
  intros _. destruct (run_loop_extends H fuel st1) as [l El].
  rewrite El. apply before_app. eapply returned_trace. exact E.
Qed.

(** ** The claims *)

(** C1 (mode purity).  Called with a function as callback, goodDualMode,
    dualModeFunction and dualModeFunc return [undefined], in any state of
    the runtime.  Called without one they return a pending promise of the
    heap to which handlers can be attached; and when the caller attaches a
    success handler [g] and a failure handler [h] (which is also what
    suspending on the handle does), exactly one of the two is called,
    once, with the outcome of the work. *)
Theorem mode_purity (H : host) (st : loop_state) (param param2 : value)
        (f g h : fid) (extra : nat) :
  (fst (call_site (goodDualMode param (VFunction f)) st) = Ok VUndefined /\
   live_handle (call_site (goodDualMode param VUndefined) st) /\
   calls (trace (snd (run_program H (3 + extra)
      (observe (goodDualMode param VUndefined) (VFunction g) (VFunction h)))))
   = [handler_call g h (goodDualMode_outcome param)]) /\
  (fst (call_site (dualModeFunction param param2 (VFunction f)) st) = Ok VUndefined /\
   live_handle (call_site (dualModeFunction param param2 VUndefined) st) /\
   calls (trace (snd (run_program H (3 + extra)
      (observe (dualModeFunction param param2 VUndefined) (VFunction g) (VFunction h)))))
   = [handler_call g h (dualModeFunction_outcome param param2)]) /\
  (fst (call_site (dualModeFunc param (VFunction f)) st) = Ok VUndefined /\
   live_handle (call_site (dualModeFunc param VUndefined) st) /\
   calls (trace (snd (run_program H (3 + extra)
      (observe (dualModeFunc param VUndefined) (VFunction g) (VFunction h)))))
   = [handler_call g h (dualModeFunc_outcome param)]).
Proof.
  split; [|split]; (split; [|split]).
  - reflexivity.
  - apply (live_handle_intro _ (List.length (heap st))); [reflexivity|].
    cbn. apply lookup_fresh.
  - crank; reflexivity.
  - apply dualModeFunction_void.
  - apply (live_handle_intro _ (List.length (heap st))); [reflexivity|].
    cbn. apply lookup_fresh.
  - crank; reflexivity.
  - apply dualModeFunc_void.
  - apply (live_handle_intro _ (List.length (heap st))); [reflexivity|].
    cbn. apply lookup_fresh.
  - crank; reflexivity.
Qed.

(** C2 (exclusivity).  After any number of turns of the loop: when the
    callback is a function the call has returned [undefined], to which no
    handler can be attached, and the only function ever called is the
    callback; when it is not, no function is ever called.  So no call
    delivers both through a callback and through a promise the caller
    holds. *)
Theorem exclusivity (H : host) (param param2 callback : value) (fuel : nat) :
  exclusive callback (execute H fuel (goodDualMode param callback)) /\
  exclusive callback (execute H fuel (dualModeFunction param param2 callback)) /\
  exclusive callback (execute H fuel (dualModeFunc param callback)) /\
  forall onF onR st, exists e, attach VUndefined onF onR st = (Throw e, st).
Proof.
  repeat split.
  - apply (exclusive_at_any_time H 2); [apply goodDualMode_rests|].
    unfold exclusive. split_mode callback; crank; repeat constructor.
  - apply (exclusive_at_any_time H 6); [apply dualModeFunction_rests|].
    unfold exclusive. split_mode callback; crank; repeat constructor.
  - apply (exclusive_at_any_time H 6); [apply dualModeFunc_rests|].
    unfold exclusive. split_mode callback; crank; repeat constructor.
  - intros. now eexists.
Qed.

(** C3 (single delivery), at an input where the code breaks it.  With the
    callback [(err, res) => { if (!err) throw new Error('boom'); }],
    dualModeFunc('test', cb) calls the callback twice: once with the
    result and, because [.catch] is chained behind [.then], once more
    with the error the callback itself threw.  dualModeFunction does the
    same; goodDualMode calls it once. *)
Theorem throwing_callback_is_called_twice :
  invocations 0 (trace (snd (execute picky 6 (dualModeFunc (VStr "test") (VFunction 0)))))
  = [[VNull; VStr "Dual-mode result: test"]; [VError "boom"]] /\
  quiescent picky (snd (execute picky 6 (dualModeFunc (VStr "test") (VFunction 0)))) /\
  invocations 0 (trace (snd (execute picky 6
                               (dualModeFunction (VStr "hello") (VStr "world") (VFunction 0)))))
  = [[VNull; result_object (VStr "hello") (VStr "world") 100]; [VError "boom"]] /\
  invocations 0 (trace (snd (execute picky 6 (goodDualMode (VStr "test") (VFunction 0)))))
  = [[VNull; VStr "test"]].
Proof. repeat split. Qed.

(** C4, as stated, fails: goodDualModeSync calls the callback before it
    returns. *)
Lemma goodDualModeSync_delivers_inside_the_call :
  deliveries (before_return
    (trace (snd (execute quiet 0 (goodDualModeSync quiet (VStr "now") (VFunction 0))))))
  <> [].
Proof. cbv. discriminate. Qed.

(** C4 (deferred delivery), amended.  For goodDualMode, dualModeFunction,
    dualModeFunc and callbackOnlyFunc, whatever the callback argument and
    however long the loop runs, no function was called and no promise was
    settled before the call returned; the callback is called, and without
    a callback the promise settles, in a later turn of the loop. *)
Theorem deferred_delivery (H : host) (param param2 callback : value) (f : fid)
        (fuel extra : nat) :
  (deliveries (before_return
     (trace (snd (execute H fuel (goodDualMode param callback))))) = [] /\
   deliveries (before_return
     (trace (snd (execute H fuel (dualModeFunction param param2 callback))))) = [] /\
   deliveries (before_return
     (trace (snd (execute H fuel (dualModeFunc param callback))))) = [] /\
   deliveries (before_return
     (trace (snd (execute H fuel (callbackOnlyFunc param callback))))) = []) /\
  ((exists args rest,
      calls (trace (snd (execute H (6 + extra) (goodDualMode param (VFunction f)))))
      = (f, args) :: rest) /\
   (exists args rest,
      calls (trace (snd (execute H (6 + extra)
                          (dualModeFunction param param2 (VFunction f)))))
      = (f, args) :: rest) /\
   (exists args rest,
      calls (trace (snd (execute H (6 + extra) (dualModeFunc param (VFunction f)))))
      = (f, args) :: rest) /\
   (exists args rest,
      calls (trace (snd (execute H (6 + extra) (callbackOnlyFunc param (VFunction f)))))
      = (f, args) :: rest)) /\
  (settlements 0 (trace (snd (execute H (2 + extra) (goodDualMode param VUndefined))))
   = [goodDualMode_outcome param] /\
   settlements 0 (trace (snd (execute H (2 + extra)
                                (dualModeFunction param param2 VUndefined))))
   = [dualModeFunction_outcome param param2] /\
   settlements 0 (trace (snd (execute H (2 + extra) (dualModeFunc param VUndefined))))
   = [dualModeFunc_outcome param]).
Proof.
  split; [|split].
  - repeat split.
    + split_mode callback;
        (erewrite sync_part_fixed by (crank; reflexivity)); crank; reflexivity.
    + split_mode callback;
        (erewrite sync_part_fixed by (crank; reflexivity)); crank; reflexivity.
    + split_mode callback;
        (erewrite sync_part_fixed by (crank; reflexivity)); crank; reflexivity.
    + erewrite sync_part_fixed by reflexivity. reflexivity.
  - repeat split; crank; eauto.
  - apply promise_mode_settles_once.
Qed.

(** C5 (error-first integrity).  The call that hands the outcome of the
    work to the callback passes an Error and nothing else when the work
    failed, and [null] and the result when it succeeded: in goodDualMode
    and callbackOnlyFunction, where it is the only call, and in
    dualModeFunction, where it is the first one and carries the outcome
    the internal promise settled with. *)
Theorem error_first_integrity (H : host) (param param2 : value) (f : fid)
        (extra : nat) :
  (exists args,
     calls (trace (snd (execute H (2 + extra) (goodDualMode param (VFunction f)))))
     = [(f, args)] /\
     delivers (goodDualMode_outcome param) args) /\
  (exists args,
     calls (trace (snd (execute H (2 + extra)
                         (callbackOnlyFunction param param2 (VFunction f)))))
     = [(f, args)] /\
     delivers (callbackOnlyFunction_outcome param param2) args) /\
  (exists args rest,
     calls (trace (snd (execute H (6 + extra)
                         (dualModeFunction param param2 (VFunction f)))))
     = (f, args) :: rest /\
     settlements 0 (trace (snd (execute H (6 + extra)
                         (dualModeFunction param param2 (VFunction f)))))
     = [dualModeFunction_outcome param param2] /\
     delivers (dualModeFunction_outcome param param2) args).
Proof.
  split; [|split].
  - crank; eexists; (split; [reflexivity|]); cbv; auto.
  - crank; eexists; (split; [reflexivity|]); cbv; auto.
  - crank; do 2 eexists; (split; [reflexivity|]); (split; [reflexivity|]);
      cbv; auto.
Qed.

(** C6, as stated, fails: dualModeFunction arms its timer, inside the
    promise executor, before it looks at the callback. *)
Lemma dualModeFunction_arms_timer_before_check :
  schedulings (before_check
    (trace (snd (execute quiet 0
                   (dualModeFunction (VStr "hello") (VStr "world") (VFunction 0))))))
  <> [].
Proof. cbv. discriminate. Qed.

(** C6 (mode-check timing), amended.  In a whole run the callback
    argument is inspected exactly once, and that is inside the call, before
    it returns and so before any scheduled task runs.  In goodDualMode
    nothing has been scheduled before the inspection; dualModeFunction has
    by then armed its 100 ms timer and dualModeFunc its immediate, and
    nothing else. *)
Theorem mode_check_timing (H : host) (param param2 callback : value) (extra : nat) :
  checked_once_in_call callback []
    (trace (snd (execute H (2 + extra) (goodDualMode param callback)))) /\
  checked_once_in_call callback [EvSetTimeout 100]
    (trace (snd (execute H (6 + extra) (dualModeFunction param param2 callback)))) /\
  checked_once_in_call callback [EvSetImmediate]
    (trace (snd (execute H (6 + extra) (dualModeFunc param callback)))).
Proof.
  unfold checked_once_in_call.
  split; [|split]; split_mode callback; crank; repeat split.
Qed.

(** C7, as stated, fails: 'fail-value' is not the string the code tests
    for, so the callback is never called with an error, however long the
    loop runs. *)
Lemma fail_value_is_delivered_as_success :
  ~ exists fuel,
      failure_reported 0
        (execute quiet fuel (goodDualMode (VStr "fail-value") (VFunction 0))).
Proof.
  intros [fuel [_ [args [Hc [He _]]]]]. revert Hc He.
  destruct fuel as [|[|fuel]]; crank; try discriminate.
  all: intros [= <-]; discriminate.
Qed.

(** C7 (failure scenario), amended.  For the input each function treats
    as failing ('fail' for goodDualMode, 'error' for dualModeFunction,
    'err' for dualModeFunc) and a callback, the call returns [undefined]
    and the callback is called exactly once, with one argument: an Error
    whose message is a constant of the function. *)
Theorem failure_scenario (H : host) (param2 : value) (f : fid) (extra : nat) :
  (failure_reported f (execute H (2 + extra) (goodDualMode (VStr "fail") (VFunction f))) /\
   calls (trace (snd (execute H (2 + extra) (goodDualMode (VStr "fail") (VFunction f)))))
   = [(f, [VError "Failure!"])]) /\
  (failure_reported f
     (execute H (6 + extra) (dualModeFunction (VStr "error") param2 (VFunction f))) /\
   calls (trace (snd (execute H (6 + extra)
                       (dualModeFunction (VStr "error") param2 (VFunction f)))))
   = [(f, [VError "Operation failed"])]) /\
  (failure_reported f (execute H (6 + extra) (dualModeFunc (VStr "err") (VFunction f))) /\
   calls (trace (snd (execute H (6 + extra) (dualModeFunc (VStr "err") (VFunction f)))))
   = [(f, [VError "Dual-mode function error"])]).
Proof.
  unfold failure_reported.
  repeat split; crank; try reflexivity; eexists; repeat split.
Qed.

(** C8 (handle identity).  When the callback argument is not a function,
    dualModeFunction and dualModeFunc create one promise, hand its
    resolve and reject to the scheduled task, and return that very
    promise; run from a fresh runtime it is the only promise there is and
    it settles once, with the outcome of the work. *)
Theorem handle_identity (H : host) (st : loop_state)
        (param param2 callback : value) (extra : nat) :
  is_function callback = false ->
  (fst (dualModeFunction param param2 callback st)
   = Ok (VPromise (List.length (heap st))) /\
   heap (snd (dualModeFunction param param2 callback st))
   = heap st ++ [mkPromise None []] /\
   timers (snd (dualModeFunction param param2 callback st))
   = timers st ++ [(clock st + 100,
                    dualModeFunction_timer param param2 (List.length (heap st)))]) /\
  (fst (dualModeFunc param callback st) = Ok (VPromise (List.length (heap st))) /\
   heap (snd (dualModeFunc param callback st)) = heap st ++ [mkPromise None []] /\
   immediates (snd (dualModeFunc param callback st))
   = immediates st ++ [dualModeFunc_immediate param (List.length (heap st))]) /\
  settled_handle (dualModeFunction_outcome param param2)
    (execute H (2 + extra) (dualModeFunction param param2 callback)) /\
  settled_handle (dualModeFunc_outcome param)
    (execute H (2 + extra) (dualModeFunc param callback)).
Proof.
  intros Hmode. unfold settled_handle.
  split; [|split; [|split]].
  - unfold dualModeFunction, typeof_is_function, bind. cbn. rewrite Hmode.
    repeat split.
  - unfold dualModeFunc, typeof_is_function, bind. cbn. rewrite Hmode.
    repeat split.
  - crank; repeat split.
  - crank; repeat split.
Qed.

Lemma handle_identity_witness :
  is_function (VStr "not a callback") = false /\
  settled_handle (dualModeFunc_outcome (VStr "test"))
    (execute quiet (2 + 0) (dualModeFunc (VStr "test") (VStr "not a callback"))).
Proof.
  split; [reflexivity|].
  apply (handle_identity quiet boot (VStr "test") VUndefined (VStr "not a callback") 0).
  reflexivity.
Defined.

(** C9 (non-function trailing argument).  When the last argument is
    anything but a function, goodDualMode, dualModeFunction and
    dualModeFunc take the promise path: they return the promise, which is
    the only promise there is and settles with the outcome of the work.
    The argument is never called and no call of it is attempted: no
    function call appears in the run, and the only error that can end up
    uncaught is the failure of the work when the caller handles nothing,
    never the type error of calling a non-function.  A caller who
    attaches a success handler [g] and a failure handler [h] sees exactly
    one of them called, and nothing else. *)
Theorem non_function_argument_means_promise_mode (H : host)
        (param param2 callback : value) (g h : fid) (extra : nat) :
  is_function callback = false ->
  (promise_mode_run (goodDualMode_outcome param)
     (execute H (2 + extra) (goodDualMode param callback)) /\
   promise_mode_run (dualModeFunction_outcome param param2)
     (execute H (2 + extra) (dualModeFunction param param2 callback)) /\
   promise_mode_run (dualModeFunc_outcome param)
     (execute H (2 + extra) (dualModeFunc param callback))) /\
  (calls (trace (snd (run_program H (3 + extra)
      (observe (goodDualMode param callback) (VFunction g) (VFunction h)))))
   = [handler_call g h (goodDualMode_outcome param)] /\
   calls (trace (snd (run_program H (3 + extra)
      (observe (dualModeFunction param param2 callback) (VFunction g) (VFunction h)))))
   = [handler_call g h (dualModeFunction_outcome param param2)] /\
   calls (trace (snd (run_program H (3 + extra)
      (observe (dualModeFunc param callback) (VFunction g) (VFunction h)))))
   = [handler_call g h (dualModeFunc_outcome param)]).
Proof.
  intros Hmode. unfold promise_mode_run.
  split; (split; [|split]); crank;
    repeat match goal with |- _ /\ _ => split end;
    try reflexivity;
    intro Hin; cbv in Hin; intuition discriminate.
Qed.

Lemma non_function_argument_witness :
  is_function (VObject [("retries", VNum 3)]) = false /\
  promise_mode_run (goodDualMode_outcome (VStr "fail"))
    (execute boom (2 + 0) (goodDualMode (VStr "fail") (VObject [("retries", VNum 3)]))).
Proof.
  split; [reflexivity|].
  apply (non_function_argument_means_promise_mode boom (VStr "fail") VNull
           (VObject [("retries", VNum 3)]) 0 1 0).
  reflexivity.
Defined.

(** C10, as stated, fails: when the callback throws, the timer callback
    of badDualMode is left before it reaches [resolve], and the returned
    promise never settles. *)
Lemma badDualMode_throwing_callback_never_settles :
  ~ exists fuel o,
      double_delivery 0 o
        (execute boom fuel (badDualMode (VStr "success") (VFunction 0))).
Proof.
  intros [fuel [o [_ [_ Hs]]]]. revert Hs.
  destruct fuel as [|[|fuel]]; crank; discriminate.
Qed.

(** C10 (the shipped bad patterns deliver twice), amended.  For a
    callback that returns normally, badDualMode and versatileFunction
    return a promise, call the callback exactly once, error-first, with
    the outcome of the work, and settle the returned promise exactly once
    with that same outcome. *)
Theorem bad_patterns_deliver_twice (H : host) (param : value) (f : fid)
        (extra : nat) :
  (forall history args, exists v, H f history args = Returns v) ->
  double_delivery f (badDualMode_outcome param)
    (execute H (2 + extra) (badDualMode param (VFunction f))) /\
  double_delivery f (versatileFunction_outcome param)
    (execute H (6 + extra) (versatileFunction param (VFunction f))).
Proof.
  intros Hret. unfold double_delivery.
  split; crank; (split; [reflexivity|]); (split; [|reflexivity]);
    eexists; (split; [reflexivity|]); cbv; auto.
Qed.

Lemma bad_patterns_witness :
  (forall history args, exists v, quiet 0 history args = Returns v) /\
  double_delivery 0 (badDualMode_outcome (VStr "fail"))
    (execute quiet (2 + 0) (badDualMode (VStr "fail") (VFunction 0))).
Proof.
  split; [intros; now eexists|].
  apply (bad_patterns_deliver_twice quiet (VStr "fail") 0 0).
  intros; now eexists.
Defined.

(** ** Further properties of the example functions *)

(** X1.  goodDualModeSync and badDualModeSync do the same things to the
    runtime, in any state and for any callback argument, and let the same
    exception through when the callback throws.  When they return they
    differ in the value only: badDualModeSync always returns the
    parameter, goodDualModeSync returns it only when the callback argument
    is not a function, and [undefined] otherwise. *)
Theorem sync_variants_differ_only_in_result (H : host) (st : loop_state)
        (param callback : value) :
  snd (goodDualModeSync H param callback st)
  = snd (badDualModeSync H param callback st) /\
  match fst (goodDualModeSync H param callback st),
        fst (badDualModeSync H param callback st) with
  | Ok g, Ok b =>
      b = param /\ g = (if is_function callback then VUndefined else param)
  | Throw e, Throw e' => e = e'
  | _, _ => False
  end.
Proof.
  split_mode callback.
  - unfold goodDualModeSync, badDualModeSync, typeof_is_function, bind. cbn.
    destruct (H f (trace st ++ [EvTypeof (VFunction f) true]) [VNull; param]);
      cbn; auto.
  - unfold goodDualModeSync, badDualModeSync, typeof_is_function, bind. cbn.
    rewrite Hmode. cbn. auto.
Qed.

(** X2.  goodDualModeSync is finished when it returns: it changes nothing
    of the runtime but the trace (no promise, no timer, no job), so no
    later turn of the loop does anything.  A callback is called exactly
    once, inside the call; when it throws, the exception comes out of
    the call itself, to the caller. *)
Theorem goodDualModeSync_is_done_when_it_returns (H : host) (st : loop_state)
        (param callback : value) (f : fid) (fuel : nat) :
  machine (snd (goodDualModeSync H param callback st)) = machine st /\
  snd (execute H fuel (goodDualModeSync H param callback))
  = snd (execute H 0 (goodDualModeSync H param callback)) /\
  calls (trace (snd (execute H fuel (goodDualModeSync H param (VFunction f)))))
  = [(f, [VNull; param])] /\
  match H f [EvTypeof (VFunction f) true] [VNull; param] with
  | Returns _ =>
      execute H fuel (goodDualModeSync H param (VFunction f))
      = (Ok VUndefined,
         set_trace [EvTypeof (VFunction f) true; EvInvoke f [VNull; param];
                    EvReturn VUndefined] boot)
  | Throws e =>
      fst (execute H fuel (goodDualModeSync H param (VFunction f))) = Throw e /\
      uncaught (trace (snd (execute H fuel (goodDualModeSync H param (VFunction f)))))
      = [e]
  end.
Proof.
  split; [|split; [|split]].
  - split_mode callback.
    + unfold goodDualModeSync, typeof_is_function, bind. cbn.
      now destruct (H f0 (trace st ++ [EvTypeof (VFunction f0) true]) [VNull; param]).
    + unfold goodDualModeSync, typeof_is_function, bind. cbn.
      now rewrite Hmode.
  - split_mode callback; crank; reflexivity.
  - crank; reflexivity.
  - crank; auto.
Qed.

(** X3.  promiseOnlyFunction returns, in any state of the runtime, a
    fresh pending promise to which handlers can be attached.  Run from a
    fresh runtime it is the only promise, it settles exactly once with
    the outcome of the work, and of a success handler [g] and a failure
    handler [h] attached to it exactly one is called, once. *)
Theorem promiseOnlyFunction_returns_its_promise (H : host) (st : loop_state)
        (param1 param2 : value) (g h : fid) (extra : nat) :
  live_handle (call_site (promiseOnlyFunction param1 param2) st) /\
  settled_handle (promiseOnlyFunction_outcome param1 param2)
    (execute H (2 + extra) (promiseOnlyFunction param1 param2)) /\
  calls (trace (snd (run_program H (3 + extra)
     (observe (promiseOnlyFunction param1 param2) (VFunction g) (VFunction h)))))
  = [handler_call g h (promiseOnlyFunction_outcome param1 param2)].
Proof.
  split; [|split].
  - apply (live_handle_intro _ (List.length (heap st))); [reflexivity|].
    cbn. apply lookup_fresh.
  - unfold settled_handle. crank; repeat split.
  - crank; reflexivity.
Qed.

(** X4.  Called with anything but a function as callback,
    dualModeFunction is promiseOnlyFunction: in any state both return the
    same promise and leave the same heap, timers and queues; the only
    difference is that dualModeFunction has, at the end, looked at the
    callback argument. *)
Theorem dualModeFunction_without_callback_is_promiseOnlyFunction
        (st : loop_state) (param1 param2 callback : value) :
  is_function callback = false ->
  fst (dualModeFunction param1 param2 callback st)
  = fst (promiseOnlyFunction param1 param2 st) /\
  machine (snd (dualModeFunction param1 param2 callback st))
  = machine (snd (promiseOnlyFunction param1 param2 st)) /\
  trace (snd (dualModeFunction param1 param2 callback st))
  = trace (snd (promiseOnlyFunction param1 param2 st)) ++ [EvTypeof callback false].
Proof.
  intros Hmode.
  unfold dualModeFunction, promiseOnlyFunction, typeof_is_function, bind. cbn.
  rewrite Hmode. repeat split.
Qed.

Lemma dualModeFunction_without_callback_witness :
  is_function (VNum 42) = false /\
  fst (dualModeFunction (VStr "hello") (VStr "world") (VNum 42) boot)
  = fst (promiseOnlyFunction (VStr "hello") (VStr "world") boot).
Proof.
  split; [reflexivity|].
  apply (dualModeFunction_without_callback_is_promiseOnlyFunction
           boot (VStr "hello") (VStr "world") (VNum 42)).
  reflexivity.
Defined.

(** X5.  With a callback, dualModeFunction hands over what
    callbackOnlyFunction hands over: callbackOnlyFunction calls the
    callback exactly once, and the first call dualModeFunction makes has
    the same arguments, the error-first form of the outcome. *)
Theorem dualModeFunction_with_callback_delivers_as_callbackOnlyFunction
        (H : host) (param1 param2 : value) (f : fid) (extra : nat) :
  exists args rest,
    calls (trace (snd (execute H (2 + extra)
                         (callbackOnlyFunction param1 param2 (VFunction f)))))
    = [(f, args)] /\
    calls (trace (snd (execute H (6 + extra)
                         (dualModeFunction param1 param2 (VFunction f)))))
    = (f, args) :: rest /\
    delivers (callbackOnlyFunction_outcome param1 param2) args.
Proof.
  crank; do 2 eexists; (split; [reflexivity|]); (split; [reflexivity|]);
    cbv; auto.
Qed.

(** X6.  callbackOnlyFunc returns [undefined] and calls its callback
    exactly once, error-first, with the outcome of the work, whatever the
    callback does. *)
Theorem callbackOnlyFunc_delivers_once (H : host) (param : value) (f : fid)
        (extra : nat) :
  fst (execute H (1 + extra) (callbackOnlyFunc param (VFunction f))) = Ok VUndefined /\
  exists args,
    calls (trace (snd (execute H (1 + extra) (callbackOnlyFunc param (VFunction f)))))
    = [(f, args)] /\
    delivers (callbackOnlyFunc_outcome param) args.
Proof.
  split.
  - crank; reflexivity.
  - crank; eexists; (split; [reflexivity|]); cbv; auto.
Qed.

(** X7.  The callback-only functions do not look at their callback: given
    anything but a function they still return [undefined], and when the
    scheduled task runs, the attempt to call the argument throws; nothing
    catches it and the process ends, with no outcome delivered. *)
Theorem callback_only_functions_crash_without_a_callback (H : host)
        (param param2 callback : value) (extra : nat) :
  is_function callback = false ->
  (fst (execute H (1 + extra) (callbackOnlyFunc param callback)) = Ok VUndefined /\
   calls (trace (snd (execute H (1 + extra) (callbackOnlyFunc param callback)))) = [] /\
   uncaught (trace (snd (execute H (1 + extra) (callbackOnlyFunc param callback))))
   = [not_callable] /\
   crashed (snd (execute H (1 + extra) (callbackOnlyFunc param callback))) = true) /\
  (fst (execute H (1 + extra) (callbackOnlyFunction param param2 callback))
   = Ok VUndefined /\
   calls (trace (snd (execute H (1 + extra)
                        (callbackOnlyFunction param param2 callback)))) = [] /\
   uncaught (trace (snd (execute H (1 + extra)
                           (callbackOnlyFunction param param2 callback))))
   = [not_callable] /\
   crashed (snd (execute H (1 + extra)
                   (callbackOnlyFunction param param2 callback))) = true).
Proof.
  intros Hmode.
  destruct callback; try discriminate Hmode; clear Hmode;
    (split; repeat split; crank; reflexivity).
Qed.

Lemma callback_only_functions_crash_witness :
  is_function VUndefined = false /\
  crashed (snd (execute quiet (1 + 0) (callbackOnlyFunc (VStr "test") VUndefined)))
  = true.
Proof.
  split; [reflexivity|].
  apply (callback_only_functions_crash_without_a_callback
           quiet (VStr "test") VNull VUndefined 0).
  reflexivity.
Defined.

Ltac settle_host Hthrow :=
  try match goal with
      | Hh : _ = Returns _ |- _ => rewrite Hthrow in Hh; discriminate
      end;
  repeat match goal with
         | Hh : _ = Throws _ |- _ => rewrite Hthrow in Hh; injection Hh as <-
         end.

(** X8.  An exception thrown by the callback of goodDualMode,
    callbackOnlyFunction or callbackOnlyFunc is nobody's to catch: the
    call has long returned [undefined], the callback was called once, and
    the exception escapes from the timer and ends the process. *)
Theorem callback_exception_escapes (H : host) (param param2 : value) (f : fid)
        (e : value) (extra : nat) :
  (forall history args, H f history args = Throws e) ->
  (fst (execute H (1 + extra) (goodDualMode param (VFunction f))) = Ok VUndefined /\
   List.length (calls (trace (snd (execute H (1 + extra)
                                    (goodDualMode param (VFunction f)))))) = 1 /\
   uncaught (trace (snd (execute H (1 + extra) (goodDualMode param (VFunction f)))))
   = [e] /\
   crashed (snd (execute H (1 + extra) (goodDualMode param (VFunction f)))) = true) /\
  (uncaught (trace (snd (execute H (1 + extra)
                          (callbackOnlyFunction param param2 (VFunction f))))) = [e] /\
   crashed (snd (execute H (1 + extra)
                   (callbackOnlyFunction param param2 (VFunction f)))) = true) /\
  (uncaught (trace (snd (execute H (1 + extra)
                          (callbackOnlyFunc param (VFunction f))))) = [e] /\
   crashed (snd (execute H (1 + extra) (callbackOnlyFunc param (VFunction f)))) = true).
Proof.
  intros Hthrow.
  repeat split; crank; settle_host Hthrow; reflexivity.
Qed.

Lemma callback_exception_escapes_witness :
  (forall history args, boom 0 history args = Throws (VError "boom")) /\
  uncaught (trace (snd (execute boom (1 + 0) (goodDualMode (VStr "test") (VFunction 0)))))
  = [VError "boom"].
Proof.
  split; [reflexivity|].
  apply (callback_exception_escapes boom (VStr "test") VNull 0 (VError "boom") 0).
  reflexivity.
Defined.

(** X9.  In dualModeFunction and dualModeFunc an exception thrown by the
    callback does not escape from a task: the callback runs inside a
    promise job, so what it throws rejects a promise of the internal
    chain.  When the callback always throws, the last promise of the
    chain ends rejected with what was thrown; nobody holds it, and once
    the jobs are done this unhandled rejection ends the process.  By then
    the callback has been called once when the work failed and twice
    when it succeeded. *)
Theorem callback_exception_becomes_unhandled_rejection (H : host)
        (param param2 : value) (f : fid) (e : value) (extra : nat) :
  (forall history args, H f history args = Throws e) ->
  (fst (execute H (6 + extra) (dualModeFunction param param2 (VFunction f)))
   = Ok VUndefined /\
   calls (trace (snd (execute H (6 + extra)
                        (dualModeFunction param param2 (VFunction f)))))
   = (if strict_eq_str param "error"
      then [(f, [VError "Operation failed"])]
      else [(f, [VNull; result_object param param2 100]); (f, [e])]) /\
   promise_state 2 (snd (execute H (6 + extra)
                           (dualModeFunction param param2 (VFunction f))))
   = Some (Some (Rejected e)) /\
   uncaught (trace (snd (execute H (6 + extra)
                           (dualModeFunction param param2 (VFunction f))))) = [e] /\
   crashed (snd (execute H (6 + extra)
                   (dualModeFunction param param2 (VFunction f)))) = true) /\
  (fst (execute H (6 + extra) (dualModeFunc param (VFunction f))) = Ok VUndefined /\
   calls (trace (snd (execute H (6 + extra) (dualModeFunc param (VFunction f)))))
   = (if strict_eq_str param "err"
      then [(f, [VError "Dual-mode function error"])]
      else [(f, [VNull; VStr ("Dual-mode result: " ++ to_string param)%string]);
            (f, [e])]) /\
   promise_state 2 (snd (execute H (6 + extra) (dualModeFunc param (VFunction f))))
   = Some (Some (Rejected e)) /\
   uncaught (trace (snd (execute H (6 + extra) (dualModeFunc param (VFunction f)))))
   = [e] /\
   crashed (snd (execute H (6 + extra) (dualModeFunc param (VFunction f)))) = true).
Proof.
  intros Hthrow.
  repeat split; crank; settle_host Hthrow; reflexivity.
Qed.

Lemma callback_exception_becomes_unhandled_rejection_witness :
  (forall history args, boom 0 history args = Throws (VError "boom")) /\
  uncaught (trace (snd (execute boom (6 + 0) (dualModeFunc (VStr "test") (VFunction 0)))))
  = [VError "boom"].
Proof.
  split; [reflexivity|].
  apply (callback_exception_becomes_unhandled_rejection boom (VStr "test") VNull 0
           (VError "boom") 0).
  reflexivity.
Defined.

(** X10.  What the callback returns is thrown away by goodDualMode,
    callbackOnlyFunction and callbackOnlyFunc: two callbacks that both
    return, whatever values, leave the runtime in exactly the same final
    state. *)
Theorem callback_return_value_is_ignored (H H' : host) (param param2 : value)
        (f : fid) (extra : nat) :
  (forall history args, exists v, H f history args = Returns v) ->
  (forall history args, exists v, H' f history args = Returns v) ->
  execute H (1 + extra) (goodDualMode param (VFunction f))
  = execute H' (1 + extra) (goodDualMode param (VFunction f)) /\
  execute H (1 + extra) (callbackOnlyFunction param param2 (VFunction f))
  = execute H' (1 + extra) (callbackOnlyFunction param param2 (VFunction f)) /\
  execute H (1 + extra) (callbackOnlyFunc param (VFunction f))
  = execute H' (1 + extra) (callbackOnlyFunc param (VFunction f)).
Proof.
  intros Hret Hret'.
  repeat split; crank; reflexivity.
Qed.

Lemma callback_return_value_is_ignored_witness :
  (forall history args, exists v, quiet 0 history args = Returns v) /\
  (forall history args, exists v, echo 0 history args = Returns v) /\
  execute quiet (1 + 0) (goodDualMode (VStr "test") (VFunction 0))
  = execute echo (1 + 0) (goodDualMode (VStr "test") (VFunction 0)).
Proof.
  split; [intros; now eexists|]. split; [intros; now eexists|].
  apply (callback_return_value_is_ignored quiet echo (VStr "test") VNull 0 0);
    intros; now eexists.
Defined.

(** X11.  versatileFunction tests its callback with [if (callback)], not
    with typeof.  Given a value that is not a function it still returns
    its promise, which settles with the outcome of the work, and no
    function is called.  But when the value counts as true (a non-empty
    string, a non-zero number, an object), the internal chain tries to
    call it: the last promise of the chain ends rejected with the type
    error, nobody holds it, and that unhandled rejection ends the
    process.  When the value counts as false, the one promise is all
    there is, and the only thing left unhandled is a failure of the work
    itself. *)
Theorem versatileFunction_trusts_any_truthy_callback (H : host)
        (param callback : value) (extra : nat) :
  is_function callback = false ->
  fst (execute H (6 + extra) (versatileFunction param callback)) = Ok (VPromise 0) /\
  calls (trace (snd (execute H (6 + extra) (versatileFunction param callback)))) = [] /\
  settlements 0 (trace (snd (execute H (6 + extra) (versatileFunction param callback))))
  = [versatileFunction_outcome param] /\
  if truthy callback
  then promise_state 2 (snd (execute H (6 + extra) (versatileFunction param callback)))
       = Some (Some (Rejected not_callable)) /\
       uncaught (trace (snd (execute H (6 + extra)
                               (versatileFunction param callback))))
       = [not_callable] /\
       crashed (snd (execute H (6 + extra) (versatileFunction param callback))) = true
  else heap (snd (execute H (6 + extra) (versatileFunction param callback)))
       = [mkPromise (Some (versatileFunction_outcome param)) []] /\
       uncaught (trace (snd (execute H (6 + extra)
                               (versatileFunction param callback))))
       = left_unhandled (versatileFunction_outcome param).
Proof.
  intros Hmode.
  destruct (truthy callback) eqn:Ht; unfold versatileFunction; rewrite Ht;
    destruct callback; try discriminate Hmode; clear Hmode Ht;
    repeat split; crank; reflexivity.
Qed.

Lemma versatileFunction_truthy_witness :
  is_function (VStr "done") = false /\
  calls (trace (snd (execute quiet (6 + 0) (versatileFunction (VStr "test") (VStr "done")))))
  = [].
Proof.
  split; [reflexivity|].
  apply (versatileFunction_trusts_any_truthy_callback quiet (VStr "test") (VStr "done") 0).
  reflexivity.
Defined.

(** X12.  The [.then(...).catch(...)] chain of dualModeFunction and of
    versatileFunction calls back twice whenever the callback throws while
    it is handed a result: once with [null] and the result, and once more
    with what the callback threw.  The promise versatileFunction returns
    is fulfilled all the same. *)
Theorem then_catch_chain_calls_back_twice (H : host) (param param2 : value)
        (f : fid) (e : value) (extra : nat) :
  strict_eq_str param "error" = false ->
  (forall history result, H f history [VNull; result] = Throws e) ->
  calls (trace (snd (execute H (6 + extra)
                       (dualModeFunction param param2 (VFunction f)))))
  = [(f, [VNull; result_object param param2 100]); (f, [e])] /\
  calls (trace (snd (execute H (6 + extra) (versatileFunction param (VFunction f)))))
  = [(f, [VNull; VStr ("Result: " ++ to_string param)%string]); (f, [e])] /\
  settlements 0 (trace (snd (execute H (6 + extra)
                               (versatileFunction param (VFunction f)))))
  = [Fulfilled (VStr ("Result: " ++ to_string param)%string)].
Proof.
  intros Hok Hthrow.
  repeat split; crank; settle_host Hthrow; reflexivity.
Qed.

Lemma then_catch_chain_witness :
  strict_eq_str (VStr "test") "error" = false /\
  (forall history result, picky 0 history [VNull; result] = Throws (VError "boom")) /\
  calls (trace (snd (execute picky (6 + 0) (versatileFunction (VStr "test") (VFunction 0)))))
  = [(0, [VNull; VStr "Result: test"]); (0, [VError "boom"])].
Proof.
  split; [reflexivity|]. split; [reflexivity|].
  apply (then_catch_chain_calls_back_twice picky (VStr "test") VNull 0 (VError "boom") 0);
    reflexivity.
Defined.

(** X13.  A caller who passes a callback to badDualMode or
    versatileFunction and also chains [.then(g).catch(h)] on what comes
    back gets the outcome twice: when no function throws, exactly two
    calls are made, the callback with the outcome in error-first form and
    the handler that goes with the outcome. *)
Theorem bad_patterns_reach_callback_and_handler (H : host) (param : value)
        (f g h : fid) (extra : nat) :
  (forall fn history args, exists v, H fn history args = Returns v) ->
  (exists args,
     Permutation
       (calls (trace (snd (run_program H (6 + extra)
          (then_catch (badDualMode param (VFunction f)) (VFunction g) (VFunction h))))))
       [(f, args); handler_call g h (badDualMode_outcome param)] /\
     delivers (badDualMode_outcome param) args) /\
  (exists args,
     Permutation
       (calls (trace (snd (run_program H (8 + extra)
          (then_catch (versatileFunction param (VFunction f)) (VFunction g) (VFunction h))))))
       [(f, args); handler_call g h (versatileFunction_outcome param)] /\
     delivers (versatileFunction_outcome param) args).
Proof.
  intros Hall.
  pose proof (Hall f) as Hf. pose proof (Hall g) as Hg. pose proof (Hall h) as Hh.
  split; crank; eexists;
    (split; [first [apply Permutation_refl | apply perm_swap] | cbv; auto]).
Qed.

Lemma bad_patterns_reach_both_witness :
  (forall fn history args, exists v, quiet fn history args = Returns v) /\
  exists args,
    Permutation
      (calls (trace (snd (run_program quiet (8 + 0)
         (then_catch (versatileFunction (VStr "error") (VFunction 0))
            (VFunction 1) (VFunction 2))))))
      [(0, args); handler_call 1 2 (versatileFunction_outcome (VStr "error"))] /\
    delivers (versatileFunction_outcome (VStr "error")) args.
Proof.
  split; [intros; now eexists|].
  apply (bad_patterns_reach_callback_and_handler quiet (VStr "error") 0 1 2 0).
  intros; now eexists.
Defined.

(** X14.  The same caller is stopped at once by goodDualMode,
    dualModeFunction and dualModeFunc: with a callback they return
    [undefined], so reading [then] off the result throws in the main
    script, the process ends there, and no function is ever called. *)
Theorem chaining_on_callback_mode_fails_at_once (H : host)
        (param param2 : value) (f : fid) (onF onR : value) (fuel : nat) :
  (fst (run_program H fuel
          (then_catch (goodDualMode param (VFunction f)) onF onR)) = Throw no_then /\
   calls (trace (snd (run_program H fuel
          (then_catch (goodDualMode param (VFunction f)) onF onR)))) = [] /\
   crashed (snd (run_program H fuel
          (then_catch (goodDualMode param (VFunction f)) onF onR))) = true) /\
  (fst (run_program H fuel
          (then_catch (dualModeFunction param param2 (VFunction f)) onF onR))
   = Throw no_then /\
   calls (trace (snd (run_program H fuel
          (then_catch (dualModeFunction param param2 (VFunction f)) onF onR)))) = [] /\
   crashed (snd (run_program H fuel
          (then_catch (dualModeFunction param param2 (VFunction f)) onF onR))) = true) /\
  (fst (run_program H fuel
          (then_catch (dualModeFunc param (VFunction f)) onF onR)) = Throw no_then /\
   calls (trace (snd (run_program H fuel
          (then_catch (dualModeFunc param (VFunction f)) onF onR)))) = [] /\
   crashed (snd (run_program H fuel
          (then_catch (dualModeFunc param (VFunction f)) onF onR))) = true).
Proof.
  repeat split; crank; reflexivity.
Qed.



(** X16.  badDualMode goes wrong only when it is given a callback: with
    anything but a function it is a promise-only function, which returns
    its promise, the only one there is, settles it once with the outcome
    of the work and calls nothing.  The typeof test in its timer keeps it
    from calling the argument: the only error that can end up uncaught is
    a failure of the work that the caller did not handle. *)
Theorem badDualMode_without_callback_is_sound (H : host)
        (param callback : value) (extra : nat) :
  is_function callback = false ->
  promise_mode_run (badDualMode_outcome param)
    (execute H (2 + extra) (badDualMode param callback)).
Proof.
  intros Hmode. unfold promise_mode_run.
  crank;
    repeat match goal with |- _ /\ _ => split end;
    try reflexivity;
    intro Hin; cbv in Hin; intuition discriminate.
Qed.

Lemma badDualMode_without_callback_witness :
  is_function VNull = false /\
  promise_mode_run (badDualMode_outcome (VStr "fail"))
    (execute quiet (2 + 0) (badDualMode (VStr "fail") VNull)).
Proof.
  split; [reflexivity|].
  apply (badDualMode_without_callback_is_sound quiet (VStr "fail") VNull 0).
  reflexivity.
Defined.

(** X17.  When no callback throws, two pending calls deliver in the order
    of their timers: two calls of goodDualMode in the order they were
    made, and dualModeFunc, which works through setImmediate, before a
    goodDualMode that was called earlier and waits for its 10 ms. *)
Theorem deliveries_follow_the_timers (H : host) (param1 param2 : value)
        (f g : fid) (extra : nat) :
  (forall fn history args, exists v, H fn history args = Returns v) ->
  (exists a b,
     calls (trace (snd (run_program H (8 + extra)
        (in_sequence (goodDualMode param1 (VFunction f))
                     (goodDualMode param2 (VFunction g))))))
     = [(f, a); (g, b)] /\
     delivers (goodDualMode_outcome param1) a /\
     delivers (goodDualMode_outcome param2) b) /\
  (exists a b,
     calls (trace (snd (run_program H (8 + extra)
        (in_sequence (goodDualMode param1 (VFunction f))
                     (dualModeFunc param2 (VFunction g))))))
     = [(g, b); (f, a)] /\
     delivers (goodDualMode_outcome param1) a /\
     delivers (dualModeFunc_outcome param2) b).
Proof.
  intros Hall.
  pose proof (Hall f) as Hf. pose proof (Hall g) as Hg.
  split; crank; do 2 eexists; (split; [reflexivity|]); cbv; auto.
Qed.

Lemma deliveries_follow_the_timers_witness :
  (forall fn history args, exists v, quiet fn history args = Returns v) /\
  exists a b,
    calls (trace (snd (run_program quiet (8 + 0)
       (in_sequence (goodDualMode (VStr "fail") (VFunction 0))
                    (dualModeFunc (VStr "test") (VFunction 1))))))
    = [(1, b); (0, a)] /\
    delivers (goodDualMode_outcome (VStr "fail")) a /\
    delivers (dualModeFunc_outcome (VStr "test")) b.
Proof.
  split; [intros; now eexists|].
  apply (deliveries_follow_the_timers quiet (VStr "fail") (VStr "test") 0 1 0).
  intros; now eexists.
Defined.

(** X18.  A callback that throws takes the other pending call down with
    it.  Of two calls of goodDualMode made one after the other, when the
    callback of the first throws, the first timer delivers the first
    call's outcome to it, the exception escapes and the process ends at
    10 ms; whatever time is given after that, this stays the only call
    ever made, so the second call's callback is never reached. *)
Theorem escaping_exception_silences_the_next_call (H : host)
        (param1 param2 : value) (f g : fid) (e : value) (extra : nat) :
  (forall history args, H f history args = Throws e) ->
  (exists a,
     calls (trace (snd (run_program H (1 + extra)
        (in_sequence (goodDualMode param1 (VFunction f))
                     (goodDualMode param2 (VFunction g))))))
     = [(f, a)] /\
     delivers (goodDualMode_outcome param1) a) /\
  returned (trace (snd (run_program H (1 + extra)
     (in_sequence (goodDualMode param1 (VFunction f))
                  (goodDualMode param2 (VFunction g))))))
  = [VUndefined; VUndefined] /\
  uncaught (trace (snd (run_program H (1 + extra)
     (in_sequence (goodDualMode param1 (VFunction f))
                  (goodDualMode param2 (VFunction g))))))
  = [e] /\
  crashed (snd (run_program H (1 + extra)
     (in_sequence (goodDualMode param1 (VFunction f))
                  (goodDualMode param2 (VFunction g))))) = true /\
  clock (snd (run_program H (1 + extra)
     (in_sequence (goodDualMode param1 (VFunction f))
                  (goodDualMode param2 (VFunction g))))) = 10 /\
  List.length (timers (snd (run_program H (1 + extra)
     (in_sequence (goodDualMode param1 (VFunction f))
                  (goodDualMode param2 (VFunction g)))))) = 1.
Proof.
  intros Hthrow.
  split; [|repeat split].
  - crank; settle_host Hthrow; eexists; (split; [reflexivity|]); cbv; auto.
  - crank; settle_host Hthrow; reflexivity.
  - crank; settle_host Hthrow; reflexivity.
  - crank; settle_host Hthrow; reflexivity.
  - crank; settle_host Hthrow; reflexivity.
  - crank; settle_host Hthrow; reflexivity.
Qed.

Lemma escaping_exception_witness :
  (forall history args, boom 0 history args = Throws (VError "boom")) /\
  uncaught (trace (snd (run_program boom (1 + 4)
     (in_sequence (goodDualMode (VStr "a") (VFunction 0))
                  (goodDualMode (VStr "b") (VFunction 1))))))
  = [VError "boom"].
Proof.
  split; [reflexivity|].
  apply (escaping_exception_silences_the_next_call boom (VStr "a") (VStr "b") 0 1
           (VError "boom") 4).
  reflexivity.
Defined.

(** ** The scripts that mix await and callbacks: symbolic execution *)

Lemma mixing_run_loop_O (H : host) (st : Mixing.loop_state) :
  Mixing.run_loop H 0 st = st.
Proof. reflexivity. Qed.

Lemma mixing_run_loop_S (H : host) (n : nat) (st : Mixing.loop_state) :
  Mixing.run_loop H (S n) st =
  match Mixing.step H st with None => st | Some st' => Mixing.run_loop H n st' end.
Proof. reflexivity. Qed.

Lemma mixing_run_loop_quiescent (H : host) (n : nat) (st : Mixing.loop_state) :
  Mixing.quiescent H st -> Mixing.run_loop H n st = st.
Proof.
  unfold Mixing.quiescent. destruct n as [|n]; cbn [Mixing.run_loop]; intros Hq.
  - reflexivity.
  - now rewrite Hq.
Qed.

Ltac mcrank :=
  repeat first
    [ progress (cbv -[Mixing.run_loop Mixing.quiescent strict_eq_str to_string
                      String.append is_function])
    | match goal with
      | |- context [is_function (VFunction ?f)] =>
          change (is_function (VFunction f)) with true
      | |- context [is_function VUndefined] =>
          change (is_function VUndefined) with false
      | Hc : is_function ?v = _ |- context [is_function ?v] => rewrite Hc
      | Hn : forall h a, exists v, ?H ?f h a = Returns v
        |- context [match ?H ?f ?t ?a with Returns _ => _ | Throws _ => _ end] =>
          let v := fresh "v" in let E := fresh "E" in
          destruct (Hn t a) as [v E]; rewrite E
      | |- context [strict_eq_str (VStr ?a) ?b] =>
          let r := eval cbv in (strict_eq_str (VStr a) b) in
          match r with true => idtac | false => idtac end;
          change (strict_eq_str (VStr a) b) with r
      | Hs : strict_eq_str ?v ?s = _ |- context [strict_eq_str ?v ?s] =>
          rewrite Hs
      | |- context [if strict_eq_str ?v ?s then _ else _] =>
          destruct (strict_eq_str v s) eqn:?
      | Hh : ?h ?f ?t ?a = _
        |- context [match ?h ?f ?t ?a with Returns _ => _ | Throws _ => _ end] =>
          rewrite Hh
      | |- context [match ?h ?f ?t ?a with Returns _ => _ | Throws _ => _ end] =>
          destruct (h f t a) eqn:?
      end
    | rewrite mixing_run_loop_S
    | rewrite mixing_run_loop_O
    | rewrite mixing_run_loop_quiescent by reflexivity ].

(** X19.  callbackBasedFunction returns [undefined] with nothing yet
    delivered, and later calls its callback exactly once, error-first,
    with the outcome of the work, whatever the callback does. *)
Theorem callbackBasedFunction_delivers_once (H : host) (param : value) (f : fid)
        (extra : nat) :
  fst (Mixing.execute H (1 + extra)
         (Mixing.callbackBasedFunction param (VFunction f))) = Ok VUndefined /\
  deliveries (before_return (Mixing.trace (snd (Mixing.execute H (1 + extra)
         (Mixing.callbackBasedFunction param (VFunction f)))))) = [] /\
  exists args,
    calls (Mixing.trace (snd (Mixing.execute H (1 + extra)
         (Mixing.callbackBasedFunction param (VFunction f)))))
    = [(f, args)] /\
    delivers (Mixing.callbackBasedFunction_outcome param) args.
Proof.
  split; [|split].
  - mcrank; reflexivity.
  - mcrank; reflexivity.
  - mcrank; eexists; (split; [reflexivity|]); cbv; auto.
Qed.

(** X20.  Awaiting a callback-based function yields [undefined], at once.
    brokenApproach and badMixing log 'Result:' with [undefined] in the
    first job after the call and their promise is fulfilled there; only
    after that is the callback called, with the result nobody waits for
    any more.  This is so whatever the callback does, and the catch block
    of neither function runs. *)
Theorem awaiting_a_callback_function_yields_undefined (H : host) (extra : nat) :
  (fst (Mixing.execute H (2 + extra) Mixing.brokenApproach) = Ok (VPromise 0) /\
   calls (Mixing.trace (snd (Mixing.execute H (2 + extra) Mixing.brokenApproach)))
   = [(Mixing.console_log_id, [VStr "Result:"; VUndefined]);
      (Mixing.brokenApproach_callback, [VNull; VStr "Success: test"])] /\
   settlements 0 (Mixing.trace (snd (Mixing.execute H (2 + extra) Mixing.brokenApproach)))
   = [Fulfilled VUndefined]) /\
  (fst (Mixing.execute H (2 + extra) Mixing.badMixing) = Ok (VPromise 0) /\
   calls (Mixing.trace (snd (Mixing.execute H (2 + extra) Mixing.badMixing)))
   = [(Mixing.console_log_id, [VStr "Result:"; VUndefined]);
      (Mixing.badMixing_callback, [VNull; VStr "Result: test"])] /\
   settlements 0 (Mixing.trace (snd (Mixing.execute H (2 + extra) Mixing.badMixing)))
   = [Fulfilled VUndefined]).
Proof.
  repeat split; mcrank; reflexivity.
Qed.

(** X21.  In worstCase the error the callback rethrows is caught by
    nothing: the async function has finished, its promise fulfilled, 100
    ms before; the catch block never runs ('This never runs:' is never
    printed), the exception escapes from the timer and the process ends. *)
Theorem worstCase_error_is_never_caught (extra : nat) :
  fst (Mixing.execute Mixing.script_host (2 + extra) Mixing.worstCase)
  = Ok (VPromise 0) /\
  calls (Mixing.trace (snd (Mixing.execute Mixing.script_host (2 + extra)
                              Mixing.worstCase)))
  = [(Mixing.worstCase_callback, [VError "Something failed"])] /\
  settlements 0 (Mixing.trace (snd (Mixing.execute Mixing.script_host (2 + extra)
                                      Mixing.worstCase)))
  = [Fulfilled VUndefined] /\
  uncaught (Mixing.trace (snd (Mixing.execute Mixing.script_host (2 + extra)
                                 Mixing.worstCase)))
  = [VError "Something failed"] /\
  Mixing.crashed (snd (Mixing.execute Mixing.script_host (2 + extra) Mixing.worstCase))
  = true /\
  Mixing.clock (snd (Mixing.execute Mixing.script_host (2 + extra) Mixing.worstCase))
  = 100.
Proof.
  repeat split; mcrank; reflexivity.
Qed.

(** X22.  The script examples/1-broken-mixing.js as a whole: it prints
    the banner, 'Result:' with [undefined], and at 300 ms the second
    banner; the callback of brokenApproach is called at 100 ms with the
    result, the one of worstCase at 400 ms with the error, which ends the
    process.  console.error is never called. *)
Theorem broken_mixing_script_run (extra : nat) :
  calls (Mixing.trace (snd (Mixing.run_program Mixing.script_host (5 + extra)
                              (Mixing.broken_mixing_script))))
  = [(Mixing.console_log_id, [VStr "=== BROKEN APPROACH ==="]);
     (Mixing.console_log_id, [VStr "Result:"; VUndefined]);
     (Mixing.brokenApproach_callback, [VNull; VStr "Success: test"]);
     (Mixing.console_log_id,
      [VStr (String (Ascii.ascii_of_nat 10) "=== WORST CASE (Unhandled Error) ===")]);
     (Mixing.worstCase_callback, [VError "Something failed"])] /\
  uncaught (Mixing.trace (snd (Mixing.run_program Mixing.script_host (5 + extra)
                                 (Mixing.broken_mixing_script))))
  = [VError "Something failed"] /\
  Mixing.crashed (snd (Mixing.run_program Mixing.script_host (5 + extra)
                         (Mixing.broken_mixing_script))) = true /\
  Mixing.clock (snd (Mixing.run_program Mixing.script_host (5 + extra)
                       (Mixing.broken_mixing_script))) = 400.
Proof.
  repeat split; mcrank; reflexivity.
Qed.

(** X23.  badErrorHandling never reports success: unless the parameter is
    'error' its timer does nothing, the callback is never called and the
    loop comes to rest with nothing pending.  For 'error' the callback is
    called once with the error. *)
Theorem badErrorHandling_never_reports_success (H : host) (param : value)
        (f : fid) (extra : nat) :
  fst (Mixing.execute H (1 + extra) (Mixing.badErrorHandling param (VFunction f)))
  = Ok VUndefined /\
  calls (Mixing.trace (snd (Mixing.execute H (1 + extra)
           (Mixing.badErrorHandling param (VFunction f)))))
  = (if strict_eq_str param "error" then [(f, [VError "Oops!"])] else []) /\
  Mixing.quiescent H (snd (Mixing.execute H (1 + extra)
           (Mixing.badErrorHandling param (VFunction f)))).
Proof.
  repeat split; mcrank; reflexivity.
Qed.

(** X24.  callbackOnly of the anti-pattern file never reports a failure:
    whatever the parameter, 'error' included, the callback is called
    exactly once, with [null] and 'Result: ' followed by the parameter. *)
Theorem callbackOnly_never_fails (H : host) (param : value) (f : fid)
        (extra : nat) :
  fst (Mixing.execute H (1 + extra) (Mixing.callbackOnly param (VFunction f)))
  = Ok VUndefined /\
  calls (Mixing.trace (snd (Mixing.execute H (1 + extra)
           (Mixing.callbackOnly param (VFunction f)))))
  = [(f, [VNull; VStr ("Result: " ++ to_string param)%string])].
Proof.
  repeat split; mcrank; reflexivity.
Qed.

(** X25.  promiseOnlyFunc returns its promise, which settles exactly
    once, with the outcome of the work; of a success handler [g] and a
    failure handler [h] attached to it exactly one is called, once, with
    that outcome. *)
Theorem promiseOnlyFunc_settles_once (H : host) (param : value) (g h : fid)
        (extra : nat) :
  fst (Mixing.execute H (1 + extra) (Mixing.promiseOnlyFunc param)) = Ok (VPromise 0) /\
  settlements 0 (Mixing.trace (snd (Mixing.execute H (1 + extra)
                                      (Mixing.promiseOnlyFunc param))))
  = [Mixing.promiseOnlyFunc_outcome param] /\
  calls (Mixing.trace (snd (Mixing.run_program H (2 + extra)
     (Mixing.observe (Mixing.promiseOnlyFunc param) (VFunction g) (VFunction h)))))
  = [handler_call g h (Mixing.promiseOnlyFunc_outcome param)].
Proof.
  repeat split; destruct extra as [|[|extra]]; mcrank; reflexivity.
Qed.
